(** * RAG_ESG: hybrid retrieval ranking and the greenwashing pass

    A shallow embedding of
    - [src/db/vector_store.py]       ([VectorStore.search_hybrid], [doc_key]),
    - [src/greenwashing_verifier.py] ([detect_claims], [verify_claims],
      [green_implement_ratio]),
    - [src/core/rag_engine.py]       (the guard and pipeline of
      [RAGEngine.query]).

    Conventions of the embedding.
    - Python [str] is [String.string]; [str.lower] is lowercasing of the
      ASCII letters.  All terms the code searches for are ASCII and none
      of them can be completed by the two non-ASCII letters whose Unicode
      lowercase has an ASCII letter, so the tests of the code come out the
      same.
    - Python [float] arithmetic is taken through the interface [PyFloat],
      with two instances: exact rationals ([Q]) and IEEE binary64
      (Rocq's primitive floats).  Every function below is written once,
      over the interface.
    - A Python [dict] is an association list kept in insertion order
      ([PyDict]): assigning to an existing key keeps its position, a new
      key goes last; [values()] follows that order.
    - A raised exception is the [Raise] case of [result].
    - The FAISS index, the BM25 retriever and the LLM chain are external
      objects: records of functions, whose calls return or raise. *)

From Stdlib Require Import List ZArith QArith Lqa Lia Bool String Ascii.
From Stdlib Require Import DecimalString Sorted Permutation Floats Uint63.
From Stdlib Require Import SpecFloat FloatAxioms.
Import ListNotations.

Local Close Scope Q_scope.
Local Open Scope list_scope.
Local Open Scope string_scope.

(** ** Python values used by the code *)

(** Exceptions: the class name and the message. *)
Record exn : Type := mkExn { exn_type : string; exn_msg : string }.

Definition RuntimeError (msg : string) : exn := mkExn "RuntimeError" msg.

(** The outcome of a call: a returned value or a raised exception. *)
Inductive result (A : Type) : Type :=
| Return (a : A)
| Raise (e : exn).

Arguments Return {A} a.
Arguments Raise {A} e.

Definition bind {A B : Type} (m : result A) (f : A -> result B) : result B :=
  match m with
  | Return a => f a
  | Raise e => Raise e
  end.

Notation "x <- m ;; f" := (bind m (fun x => f))
  (at level 61, m at next level, right associativity).

(** Python [float] operations the code performs.  [of_int n] is
    [float(n)], [truediv n m] is [n / m] on two [int]s (divisors are
    positive wherever the code divides), [flt] is [<]. *)
Class PyFloat (F : Type) : Type := {
  of_int : Z -> F;
  truediv : Z -> Z -> F;
  fadd : F -> F -> F;
  fsub : F -> F -> F;
  fmul : F -> F -> F;
  flt : F -> F -> bool
}.

(** Exact arithmetic. *)
#[export] Instance Q_float : PyFloat Q := {|
  of_int := inject_Z;
  truediv := fun n m => Qdiv (inject_Z n) (inject_Z m);
  fadd := Qplus;
  fsub := Qminus;
  fmul := Qmult;
  flt := fun a b => negb (Qle_bool b a)
|}.

(** IEEE binary64.  The conversion is exact below [2^53], far above any
    list length. *)
Definition float_of_Z (z : Z) : float :=
  if (z <? 0)%Z
  then PrimFloat.opp (PrimFloat.of_uint63 (Uint63.of_Z (- z)))
  else PrimFloat.of_uint63 (Uint63.of_Z z).

#[export] Instance binary64 : PyFloat float := {|
  of_int := float_of_Z;
  truediv := fun n m => PrimFloat.div (float_of_Z n) (float_of_Z m);
  fadd := PrimFloat.add;
  fsub := PrimFloat.sub;
  fmul := PrimFloat.mul;
  flt := PrimFloat.ltb
|}.

(** The built-in [hash] on [str]: some function into the integers, fixed
    for the life of the process. *)
Class PyHash : Type := { hash : string -> Z }.

(** ** Strings *)

Module PyStr.

Definition lower_ascii (c : ascii) : ascii :=
  let n := nat_of_ascii c in
  if (65 <=? n)%nat && (n <=? 90)%nat then ascii_of_nat (n + 32) else c.

(** [s.lower()] *)
Fixpoint lower (s : string) : string :=
  match s with
  | EmptyString => EmptyString
  | String c s' => String (lower_ascii c) (lower s')
  end.

(** [sub in s] *)
Fixpoint contains (sub s : string) : bool :=
  match s with
  | EmptyString => prefix sub EmptyString
  | String _ s' => prefix sub s || contains sub s'
  end.

(** [str(n)] for an [int] *)
Definition of_Z (n : Z) : string := NilZero.string_of_int (Z.to_int n).


End PyStr.

(** ** Insertion-ordered dictionaries with [str] keys *)

Module PyDict.

Definition t (V : Type) : Type := list (string * V).

Definition empty {V : Type} : t V := [].

(** [d.get(k)] *)
Fixpoint get {V : Type} (k : string) (d : t V) : option V :=
  match d with
  | [] => None
  | (k', v) :: d' => if String.eqb k k' then Some v else get k d'
  end.

(** [d.get(k, dflt)] *)
Definition get_default {V : Type} (k : string) (dflt : V) (d : t V) : V :=
  match get k d with
  | Some v => v
  | None => dflt
  end.

(** [k in d] *)
Definition mem {V : Type} (k : string) (d : t V) : bool :=
  match get k d with
  | Some _ => true
  | None => false
  end.

(** [d[k] = v] *)
Fixpoint set {V : Type} (k : string) (v : V) (d : t V) : t V :=
  match d with
  | [] => [(k, v)]
  | (k', v') :: d' =>
      if String.eqb k k' then (k, v) :: d' else (k', v') :: set k v d'
  end.

Definition keys {V : Type} (d : t V) : list string := map fst d.

(** [d.values()] *)
Definition values {V : Type} (d : t V) : list V := map snd d.

End PyDict.

(** ** Lists *)

(** [enumerate(l)] *)
Fixpoint enumerate_from {A : Type} (i : nat) (l : list A) : list (nat * A) :=
  match l with
  | [] => []
  | x :: l' => (i, x) :: enumerate_from (S i) l'
  end.

Definition enumerate {A : Type} (l : list A) : list (nat * A) :=
  enumerate_from 0 l.


(** [l[:k]]: the first [k] items, or all but the last [-k] when [k] is
    negative. *)
Definition slice_to {A : Type} (k : Z) (l : list A) : list A :=
  if (k <? 0)%Z
  then firstn (Z.to_nat (Z.of_nat (List.length l) + k)) l
  else firstn (Z.to_nat k) l.

(** [sorted(l, key=key, reverse=True)].  Python's sort is stable, also
    under [reverse=True]: items come out by decreasing key and items
    with equal keys keep their input order.  Each item is placed before
    the first one whose key is not above its own. *)
Section SortedReverse.
Context {A F : Type} {HF : PyFloat F} (key : A -> F).

Fixpoint insert_desc (x : A) (l : list A) : list A :=
  match l with
  | [] => [x]
  | y :: l' =>
      if flt (key x) (key y) then y :: insert_desc x l' else x :: y :: l'
  end.

Definition sorted_reverse (l : list A) : list A :=
  fold_right insert_desc [] l.

End SortedReverse.

(** The order of the result.  In any float model: the key of [a] is not
    below the key of [b], by the comparison the sort uses.  For keys
    among the rationals and for binary64 keys: the key of [a] is at least
    the key of [b]. *)
Definition not_below {A F : Type} {HF : PyFloat F} (key : A -> F) (a b : A)
  : Prop :=
  flt (key a) (key b) = false.

Definition key_ge {A : Type} (key : A -> Q) (a b : A) : Prop :=
  (key b <= key a)%Q.

Definition float_ge {A : Type} (key : A -> float) (a b : A) : Prop :=
  PrimFloat.leb (key b) (key a) = true.

(** A binary64 number that is not a NaN. *)
Definition not_nan (x : float) : Prop := PrimFloat.is_nan x = false.

(** ** Documents *)

(** A metadata value: a string, an integer or [None]. *)
Inductive MetaVal : Type :=
| MStr (s : string)
| MInt (n : Z)
| MNone.

(** How an f-string renders the value. *)
Definition format_val (v : MetaVal) : string :=
  match v with
  | MStr s => s
  | MInt n => PyStr.of_Z n
  | MNone => "None"
  end.

(** [langchain.schema.Document] *)
Record Document : Type := mkDocument {
  page_content : string;
  metadata : PyDict.t MetaVal
}.

(** The chunk identity of the specification: source, page and text. *)
Definition same_chunk (d1 d2 : Document) : Prop :=
  PyDict.get "source" (metadata d1) = PyDict.get "source" (metadata d2) /\
  PyDict.get "page" (metadata d1) = PyDict.get "page" (metadata d2) /\
  page_content d1 = page_content d2.

(** ** [src/db/vector_store.py] *)

Section Retrieval.
Context {F : Type} {HF : PyFloat F} {HH : PyHash}.

(** The FAISS index of [langchain]: hits come best first, each with its
    distance.  The call may raise. *)
Record FAISS : Type := mkFAISS {
  similarity_search_with_score : string -> Z -> result (list (Document * F))
}.

(** The BM25 retriever of [langchain]: documents by decreasing relevance. *)
Record BM25Retriever : Type := mkBM25 {
  get_relevant_documents : string -> result (list Document)
}.

Record VectorStore : Type := mkVectorStore {
  _store : option FAISS;
  _bm25 : option BM25Retriever;
  _documents : list Document
}.

(** [doc_key], the local function of [search_hybrid]. *)
Definition doc_key (doc : Document) : string :=
  format_val (PyDict.get_default "source" (MStr "") (metadata doc))
  ++ "-" ++
  format_val (PyDict.get_default "page" (MStr "") (metadata doc))
  ++ "-" ++
  PyStr.of_Z (hash (page_content doc)).

(** [1 / (1 + rank)] *)
Definition inv_rank (rank : nat) : F := truediv 1 (1 + Z.of_nat rank).

(** The first loop of [search_hybrid]: every dense hit assigns its key. *)
Definition dense_step (alpha : F) (combined : PyDict.t (Document * F))
  (item : nat * (Document * F)) : PyDict.t (Document * F) :=
  let '(rank, (doc, _)) := item in
  let key := doc_key doc in
  let inv_rank_score := inv_rank rank in
  PyDict.set key (doc, fmul alpha inv_rank_score) combined.

(** The second loop: a lexical hit adds to the entry of its key when
    there is one and creates the entry otherwise. *)
Definition bm25_step (alpha : F) (combined : PyDict.t (Document * F))
  (item : nat * Document) : PyDict.t (Document * F) :=
  let '(rank, doc) := item in
  let key := doc_key doc in
  let bm25_score := inv_rank rank in
  match PyDict.get key combined with
  | Some (doc0, score0) =>
      PyDict.set key
        (doc0, fadd score0 (fmul (fsub (of_int 1) alpha) bm25_score)) combined
  | None =>
      PyDict.set key (doc, fmul (fsub (of_int 1) alpha) bm25_score) combined
  end.

(** The dictionary [combined] once both loops have run. *)
Definition combined_scores (alpha : F) (vector_hits : list (Document * F))
  (bm25_hits : list Document) : PyDict.t (Document * F) :=
  fold_left (bm25_step alpha) (enumerate bm25_hits)
    (fold_left (dense_step alpha) (enumerate vector_hits) PyDict.empty).

(** [sorted(combined.values(), key=lambda x: x[1], reverse=True)[:k]] *)
Definition ranked_top (k : Z) (combined : PyDict.t (Document * F))
  : list (Document * F) :=
  let ranked := sorted_reverse snd (PyDict.values combined) in
  slice_to k ranked.

Definition search_hybrid (self : VectorStore) (query : string) (k : Z)
  (alpha : F) : result (list (Document * F)) :=
  match _store self with
  | None => Raise (RuntimeError "Vector store not initialized")
  | Some store =>
      vector_hits <- similarity_search_with_score store query (k * 2) ;;
      bm25_hits <-
        match _bm25 self with
        | Some bm25 => get_relevant_documents bm25 query
        | None => Return []
        end ;;
      Return (ranked_top k (combined_scores alpha vector_hits bm25_hits))
  end.

(** *** Vocabulary of the statements about [search_hybrid] *)

(** The keys of the two hit lists, rank by rank. *)
Definition dense_keys (vector_hits : list (Document * F)) : list string :=
  map (fun hit => doc_key (fst hit)) vector_hits.

Definition lexical_keys (bm25_hits : list Document) : list string :=
  map doc_key bm25_hits.

(** [alpha * 1/(1+r)] and [(1-alpha) * 1/(1+s)] *)
Definition dense_term (alpha : F) (r : nat) : F := fmul alpha (inv_rank r).

Definition lexical_term (alpha : F) (s : nat) : F :=
  fmul (fsub (of_int 1) alpha) (inv_rank s).

(** The ranks at which a key occurs among the lexical hits, from
    [start], in increasing order, with the hit found there. *)
Definition lexical_hits_of_from (start : nat) (key : string)
  (bm25_hits : list Document) : list (nat * Document) :=
  filter (fun item => String.eqb (doc_key (snd item)) key)
    (enumerate_from start bm25_hits).

Definition lexical_ranks (key : string) (bm25_hits : list Document)
  : list nat :=
  map fst (lexical_hits_of_from 0 key bm25_hits).

(** Adding the lexical terms of the given ranks, one after the other. *)
Definition add_lexical (alpha : F) (base : F) (ranks : list nat) : F :=
  fold_left (fun acc s => fadd acc (lexical_term alpha s)) ranks base.

(** The last dense hit with the given key, with its rank counted from
    [start]. *)
Fixpoint last_dense_from (start : nat) (key : string)
  (vector_hits : list (Document * F)) : option (nat * Document) :=
  match vector_hits with
  | [] => None
  | hit :: rest =>
      match last_dense_from (S start) key rest with
      | Some found => Some found
      | None =>
          if String.eqb (doc_key (fst hit)) key
          then Some (start, fst hit) else None
      end
  end.

(** What [combined] holds under a key, read off the two hit lists. *)
Definition entry_after_dense (alpha : F) (start : nat) (key : string)
  (vector_hits : list (Document * F)) (before : option (Document * F))
  : option (Document * F) :=
  match last_dense_from start key vector_hits with
  | Some (r, doc) => Some (doc, dense_term alpha r)
  | None => before
  end.

Definition entry_after_lexical (alpha : F) (start : nat) (key : string)
  (bm25_hits : list Document) (before : option (Document * F))
  : option (Document * F) :=
  match before with
  | Some (doc, score) =>
      Some (doc, add_lexical alpha score
                   (map fst (lexical_hits_of_from start key bm25_hits)))
  | None =>
      match lexical_hits_of_from start key bm25_hits with
      | [] => None
      | (s, doc) :: more =>
          Some (doc, add_lexical alpha (lexical_term alpha s) (map fst more))
      end
  end.

(** The two retrievals of [search_hybrid] return these hits. *)
Definition retrieves (self : VectorStore) (query : string) (k : Z)
  (vector_hits : list (Document * F)) (bm25_hits : list Document) : Prop :=
  exists store,
    _store self = Some store /\
    similarity_search_with_score store query (k * 2) = Return vector_hits /\
    match _bm25 self with
    | Some bm25 => get_relevant_documents bm25 query
    | None => Return []
    end = Return bm25_hits.

(** Every entry of the dictionary sits under the key of its document,
    and no key is there twice. *)
Definition keyed_by_doc (combined : PyDict.t (Document * F)) : Prop :=
  NoDup (PyDict.keys combined) /\
  Forall (fun entry => fst entry = doc_key (fst (snd entry))) combined.

End Retrieval.

(** ** [src/greenwashing_verifier.py] *)

(** The vocabulary of [detect_claims]. *)
Definition green_terms : list string :=
  [ "green"; "renewable"; "solar"; "wind"; "energy efficiency";
    "emissions"; "carbon"; "sustainable"; "impact"; "sdg"; "taxonomy" ].

(** [any(term in text_lower for term in green_terms)] *)
Definition has_green_term (text_lower : string) : bool :=
  existsb (fun term => PyStr.contains term text_lower) green_terms.

(** One turn of the loop of [detect_claims]. *)
Definition detect_step (hits : list (Document * string)) (doc : Document)
  : list (Document * string) :=
  let text_lower := PyStr.lower (page_content doc) in
  if has_green_term text_lower
  then (hits ++ [(doc, "claim_detected")])%list
  else hits.

(** Layer A.  No LLM chain is among the arguments. *)
Definition detect_claims (documents : list Document)
  : list (Document * string) :=
  fold_left detect_step documents [].

(** The verification chain: the prompt filled with the text goes to the
    LLM; the call returns the answer or raises. *)
Record LLMChain : Type := mkLLMChain {
  run : string -> result string
}.

(** The dictionary built per claim by [verify_claims]; [d.get(k)] is
    [None] for a missing key. *)
Record Verified : Type := mkVerified {
  page : option MetaVal;
  source : option MetaVal;
  verdict : string
}.

Definition verified_of (doc : Document) (verdict : string) : Verified :=
  mkVerified (PyDict.get "page" (metadata doc))
             (PyDict.get "source" (metadata doc))
             verdict.

(** One turn of the loop of [verify_claims]: the call to the chain and
    the [append].  There is no exception handler around the call: once
    it raises, the function is left with that exception. *)
Definition verify_step (_verification_chain : LLMChain)
  (acc : result (list Verified)) (claim : Document * string)
  : result (list Verified) :=
  results <- acc ;;
  let '(doc, _) := claim in
  verdict <- run _verification_chain (page_content doc) ;;
  Return (results ++ [verified_of doc verdict])%list.

(** Layer B. *)
Definition verify_claims (_verification_chain : LLMChain)
  (claims : list (Document * string)) : result (list Verified) :=
  fold_left (verify_step _verification_chain) claims (Return []).

(** ["implemented" in v["verdict"].lower()] *)
Definition says_implemented (v : Verified) : bool :=
  PyStr.contains "implemented" (PyStr.lower (verdict v)).

Definition green_implement_ratio {F : Type} {HF : PyFloat F}
  (verified : list Verified) : F :=
  match verified with
  | [] => of_int 0
  | _ :: _ =>
      let implemented := List.length (filter says_implemented verified) in
      truediv (Z.of_nat implemented) (Z.of_nat (List.length verified))
  end.

(** *** Vocabulary of the statements about the verifier *)


(** [n] of the [items] satisfy [P]. *)
Inductive counted {A : Type} (P : A -> Prop) : list A -> nat -> Prop :=
| counted_nil : counted P [] 0
| counted_yes x items n :
    P x -> counted P items n -> counted P (x :: items) (S n)
| counted_no x items n :
    ~ P x -> counted P items n -> counted P (x :: items) n.




(** ** [src/core/rag_engine.py] *)

Section Engine.
Context {F : Type} {HF : PyFloat F} {HH : PyHash}.

(** The default [alpha = 0.6] of [search_hybrid]. *)
Definition alpha_default : F := truediv 3 5.

(** [load_or_create([])].  [persisted] is the index saved under
    [index_path], if that path exists; [bm25_from_documents] is
    [BM25Retriever.from_documents]. *)
Definition load_or_create_nil (persisted : option (@FAISS F))
  (bm25_from_documents : list Document -> BM25Retriever)
  (self : @VectorStore F) : @VectorStore F :=
  let store :=
    match persisted with
    | Some index => Some index
    | None => _store self
    end in
  let bm25 :=
    match _documents self, _bm25 self with
    | _ :: _, None => Some (bm25_from_documents (_documents self))
    | _, b => b
    end in
  mkVectorStore store bm25 (_documents self).

(** What [query] puts on the card: the ratio and the retrieved
    documents of the audit trail. *)
Record Card : Type := mkCard {
  greenwashing_score : F;
  audit_docs : list Document
}.

Definition query (persisted : option (@FAISS F))
  (bm25_from_documents : list Document -> BM25Retriever)
  (chain : LLMChain) (vector_store : @VectorStore F) (question : string)
  : result Card :=
  let vector_store :=
    match _store vector_store with
    | None => load_or_create_nil persisted bm25_from_documents vector_store
    | Some _ => vector_store
    end in
  match _store vector_store with
  | None =>
      Raise (RuntimeError
               "No documents ingested; please add files before querying.")
  | Some _ =>
      results <- search_hybrid vector_store question 5 alpha_default ;;
      let docs := map fst results in
      let detections := detect_claims docs in
      verified <- verify_claims chain detections ;;
      let green_ratio := green_implement_ratio verified in
      Return (mkCard green_ratio docs)
  end.

End Engine.

(** ** Sample inputs *)

Module Sample.

(** A hash to run the code with: the length of the text. *)
Definition length_hash : PyHash :=
  {| hash := fun s => Z.of_nat (String.length s) |}.

Definition solar : Document :=
  mkDocument "Solar capacity increased"
    [("source", MStr "report.pdf"); ("page", MInt 1)].

Definition minutes : Document :=
  mkDocument "Quarterly board minutes" [("source", MStr "notes.txt")].

Definition wind : Document :=
  mkDocument "WIND farm output"
    [("source", MStr "report.pdf"); ("page", MInt 2)].

(** An index that answers every query with the first [k] of the given
    hits, and a retriever that answers with the given documents. *)
Definition faiss_of {F : Type} (hits : list (Document * F)) : @FAISS F :=
  mkFAISS (fun _ k => Return (firstn (Z.to_nat k) hits)).

Definition bm25_of (docs : list Document) : BM25Retriever :=
  mkBM25 (fun _ => Return docs).

Definition store_of {F : Type} (hits : list (Document * F))
  (docs : list Document) : @VectorStore F :=
  mkVectorStore (Some (faiss_of hits)) (Some (bm25_of docs)) docs.

Definition empty_store {F : Type} : @VectorStore F :=
  mkVectorStore None None [].

(** A chain whose call times out on one text and answers on the others. *)
Definition timeout : exn := mkExn "TimeoutError" "request timed out".

Definition chain_failing_on (text : string) : LLMChain :=
  mkLLMChain (fun t => if String.eqb t text then Raise timeout
                       else Return "implemented").

Definition chain_saying (answer : string) : LLMChain :=
  mkLLMChain (fun _ => Return answer).

End Sample.

(** * The rest of the code *)

(** ** [src/db/vector_store.py]: [search], and words for the result of
    [search_hybrid] *)


(** The distinct strings of a list, each at the place of its first
    occurrence. *)
Fixpoint first_occurrences (l : list string) : list string :=
  match l with
  | [] => []
  | x :: l' =>
      x :: filter (fun y => negb (String.eqb x y)) (first_occurrences l')
  end.

(** A key joins the keys seen so far, at the end, unless it is there. *)
Definition note_key (seen : list string) (k : string) : list string :=
  if existsb (String.eqb k) seen then seen else (seen ++ [k])%list.



(** ** Code that changes the store: state and exceptions

    A method that updates its object and may raise is a function from
    the state before the call to an outcome and the state after it; what
    was assigned before an exception stays assigned. *)

Definition Run (W A : Type) : Type := W -> result A * W.

Definition ret {W A : Type} (a : A) : Run W A := fun w => (Return a, w).

(** A call that returns or raises and leaves the state alone. *)
Definition lift {W A : Type} (r : result A) : Run W A := fun w => (r, w).

Definition bindS {W A B : Type} (m : Run W A) (f : A -> Run W B)
  : Run W B :=
  fun w =>
    match m w with
    | (Return a, w') => f a w'
    | (Raise e, w') => (Raise e, w')
    end.

Definition gets {W A : Type} (f : W -> A) : Run W A :=
  fun w => (Return (f w), w).

Definition modify {W : Type} (f : W -> W) : Run W unit :=
  fun w => (Return tt, f w).

Notation "x <~ m ;; f" := (bindS m (fun x => f))
  (at level 61, m at next level, right associativity).

Notation "m ;;; f" := (bindS m (fun _ => f))
  (at level 61, right associativity).

(** ** [src/db/vector_store.py]: [save], [add_documents],
    [load_or_create] *)

Section Store.
Context {F : Type}.

(** What langchain does for the store: [FAISS.from_documents], the
    index after [add_documents] ran on it, and
    [BM25Retriever.from_documents].  Each call returns or raises. *)
Record Backend : Type := mkBackend {
  FAISS_from_documents : list Document -> result (@FAISS F);
  FAISS_add_documents : @FAISS F -> list Document -> result (@FAISS F);
  BM25_from_documents : list Document -> result BM25Retriever
}.

(** The store object and the file under [index_path], which holds the
    index last saved there, if the path exists. *)
Record World : Type := mkWorld {
  vector_store : @VectorStore F;
  index_file : option (@FAISS F)
}.

Definition set_store (store : option (@FAISS F)) : Run World unit :=
  modify (fun w =>
            mkWorld (mkVectorStore store (_bm25 (vector_store w))
                       (_documents (vector_store w)))
                    (index_file w)).

Definition set_bm25 (bm25 : option BM25Retriever) : Run World unit :=
  modify (fun w =>
            mkWorld (mkVectorStore (_store (vector_store w)) bm25
                       (_documents (vector_store w)))
                    (index_file w)).

(** [self._documents.extend(documents)] *)
Definition extend_documents (documents : list Document) : Run World unit :=
  modify (fun w =>
            mkWorld (mkVectorStore (_store (vector_store w))
                       (_bm25 (vector_store w))
                       (_documents (vector_store w) ++ documents)%list)
                    (index_file w)).

(** [save]: with a store, the file holds it afterwards. *)
Definition save : Run World unit :=
  store <~ gets (fun w => _store (vector_store w)) ;;
  match store with
  | Some index =>
      modify (fun w => mkWorld (vector_store w) (Some index))
  | None => ret tt
  end.

(** [if self._documents: self._bm25 = BM25Retriever.from_documents(...)] *)
Definition rebuild_bm25 (backend : Backend) : Run World unit :=
  docs <~ gets (fun w => _documents (vector_store w)) ;;
  match docs with
  | [] => ret tt
  | _ :: _ =>
      bm25 <~ lift (BM25_from_documents backend docs) ;;
      set_bm25 (Some bm25)
  end.

Definition add_documents (backend : Backend) (documents : list Document)
  : Run World unit :=
  store <~ gets (fun w => _store (vector_store w)) ;;
  (match store with
   | None =>
       index <~ lift (FAISS_from_documents backend documents) ;;
       set_store (Some index)
   | Some index =>
       index' <~ lift (FAISS_add_documents backend index documents) ;;
       set_store (Some index')
   end) ;;;
  extend_documents documents ;;;
  rebuild_bm25 backend ;;;
  save.

Definition load_or_create (backend : Backend) (documents : list Document)
  : Run World (option (@FAISS F)) :=
  file <~ gets index_file ;;
  (match file, documents with
   | Some index, [] => set_store (Some index)
   | Some index, _ :: _ =>
       set_store (Some index) ;;; add_documents backend documents
   | None, _ :: _ =>
       index <~ lift (FAISS_from_documents backend documents) ;;
       set_store (Some index) ;;;
       extend_documents documents ;;;
       save
   | None, [] => ret tt
   end) ;;;
  docs <~ gets (fun w => _documents (vector_store w)) ;;
  bm25 <~ gets (fun w => _bm25 (vector_store w)) ;;
  (match docs, bm25 with
   | _ :: _, None =>
       built <~ lift (BM25_from_documents backend docs) ;;
       set_bm25 (Some built)
   | _, _ => ret tt
   end) ;;;
  gets (fun w => _store (vector_store w)).

(** The states the methods produce: without a store there are no
    documents and no retriever; a store is the one in the file; the
    retriever is there exactly when there are documents, and is the one
    built from them. *)
Definition consistent (backend : Backend) (w : World) : Prop :=
  (_store (vector_store w) = None ->
   _documents (vector_store w) = [] /\ _bm25 (vector_store w) = None)
  /\ (forall index,
         _store (vector_store w) = Some index -> index_file w = Some index)
  /\ match _documents (vector_store w) with
     | [] => _bm25 (vector_store w) = None
     | docs =>
         exists bm25,
           BM25_from_documents backend docs = Return bm25
           /\ _bm25 (vector_store w) = Some bm25
     end.

(** The FAISS call of [add_documents]. *)
Definition index_call (backend : Backend) (documents : list Document)
  (w : World)
  : result (@FAISS F) :=
  match _store (vector_store w) with
  | None => FAISS_from_documents backend documents
  | Some index => FAISS_add_documents backend index documents
  end.

(** The retriever after the rebuild of [add_documents]. *)
Definition rebuilt (backend : Backend) (old : option BM25Retriever)
  (docs : list Document) (bm25 : option BM25Retriever) : Prop :=
  match docs with
  | [] => bm25 = old
  | _ :: _ =>
      exists built,
        BM25_from_documents backend docs = Return built /\ bm25 = Some built
  end.

(** Two backends that can differ only in what their constructors do
    with an empty list of documents. *)
Definition agree_on_documents (b1 b2 : Backend) : Prop :=
  (forall docs, docs <> [] ->
                FAISS_from_documents b1 docs = FAISS_from_documents b2 docs)
  /\ (forall index docs,
         FAISS_add_documents b1 index docs = FAISS_add_documents b2 index docs)
  /\ (forall docs, docs <> [] ->
                   BM25_from_documents b1 docs = BM25_from_documents b2 docs).

(** A process that has just started: the object of [__init__]. *)
Definition fresh_store : @VectorStore F := mkVectorStore None None [].

End Store.

(** ** [src/processors/document.py] *)

Definition ValueError (msg : string) : exn := mkExn "ValueError" msg.

(** [pathlib.Path], by what the code reads off it: [str(path)],
    [path.suffix] and [path.name]. *)
Record Path : Type := mkPath {
  path_str : string;
  path_suffix : string;
  path_name : string
}.

(** The loaders of langchain ([loader.load()] by [str(path)]), the size
    of the image PIL opens, and the text splitter. *)
Record Loaders : Type := mkLoaders {
  PyPDFLoader_load : string -> result (list Document);
  TextLoader_load : string -> result (list Document);
  UnstructuredMarkdownLoader_load : string -> result (list Document);
  Docx2txtLoader_load : string -> result (list Document);
  Image_size : Path -> result (Z * Z);
  split_documents : list Document -> result (list Document)
}.

Section Processor.
Variable loaders : Loaders.

Definition _split (docs : list Document) : result (list Document) :=
  split_documents loaders docs.

Definition _load_pdf (path : Path) : result (list Document) :=
  docs <- PyPDFLoader_load loaders (path_str path) ;; _split docs.

Definition _load_text (path : Path) : result (list Document) :=
  docs <- TextLoader_load loaders (path_str path) ;; _split docs.

Definition _load_markdown (path : Path) : result (list Document) :=
  docs <- UnstructuredMarkdownLoader_load loaders (path_str path) ;;
  _split docs.

Definition _load_docx (path : Path) : result (list Document) :=
  docs <- Docx2txtLoader_load loaders (path_str path) ;; _split docs.

(** The text is [f"[image:{path.name} size={image.size}]"], the size
    being a pair. *)
Definition _load_image (path : Path) : result (list Document) :=
  size <- Image_size loaders path ;;
  let text :=
    "[image:" ++ path_name path ++ " size=("
    ++ PyStr.of_Z (fst size) ++ ", " ++ PyStr.of_Z (snd size) ++ ")]" in
  _split [mkDocument text [("source", MStr (path_str path))]].

Definition process_file (path : Path) : result (list Document) :=
  let suffix := PyStr.lower (path_suffix path) in
  if String.eqb suffix ".pdf" then _load_pdf path
  else if String.eqb suffix ".docx" then _load_docx path
  else if existsb (String.eqb suffix) [".txt"] then _load_text path
  else if existsb (String.eqb suffix) [".md"; ".markdown"]
       then _load_markdown path
  else if existsb (String.eqb suffix) [".png"; ".jpg"; ".jpeg"]
       then _load_image path
  else Raise (ValueError ("Unsupported file type: " ++ suffix)).

(** The loop at the head of [RAGEngine.ingest]. *)
Definition process_all (paths : list Path) : result (list Document) :=
  fold_left
    (fun acc path =>
       docs <- acc ;;
       more <- process_file path ;;
       Return (docs ++ more)%list)
    paths (Return []).

End Processor.


(** ** [src/core/rag_engine.py]: [ingest] *)

Definition ingest {F : Type} (loaders : Loaders) (backend : @Backend F)
  (paths : list Path) : Run (@World F) unit :=
  docs <~ lift (process_all loaders paths) ;;
  store <~ gets (fun w => _store (vector_store w)) ;;
  match store with
  | Some _ => add_documents backend docs
  | None => load_or_create backend docs ;;; ret tt
  end.

(** ** More of Python's [str] and [dict] *)

(** [s.replace(" ", "")] *)
Fixpoint remove_spaces (s : string) : string :=
  match s with
  | EmptyString => EmptyString
  | String c s' =>
      if Ascii.eqb c " " then remove_spaces s'
      else String c (remove_spaces s')
  end.

(** The ASCII characters [str.isspace] accepts: tab to carriage return,
    the four separators and the space. *)
Definition is_space (c : ascii) : bool :=
  let n := nat_of_ascii c in
  ((9 <=? n)%nat && (n <=? 13)%nat) || ((28 <=? n)%nat && (n <=? 32)%nat).

Fixpoint lstrip (s : string) : string :=
  match s with
  | EmptyString => EmptyString
  | String c s' => if is_space c then lstrip s' else s
  end.

Fixpoint rstrip (s : string) : string :=
  match s with
  | EmptyString => EmptyString
  | String c s' =>
      match rstrip s' with
      | EmptyString => if is_space c then EmptyString else String c EmptyString
      | rest => String c rest
      end
  end.

(** [s.strip()] *)
Definition strip (s : string) : string := rstrip (lstrip s).

(** [d.get(k)] on a dictionary of metadata values: [None] for a missing
    key. *)
Definition py_get (k : string) (d : PyDict.t MetaVal) : MetaVal :=
  PyDict.get_default k MNone d.

(** [a == b] on metadata values. *)
Definition MetaVal_eqb (a b : MetaVal) : bool :=
  match a, b with
  | MStr s, MStr t => String.eqb s t
  | MInt n, MInt m => Z.eqb n m
  | MNone, MNone => true
  | _, _ => false
  end.

(** ** [src/hybrid_parser.py] *)

Definition AttributeError (msg : string) : exn := mkExn "AttributeError" msg.

(** The dataclass [LinkedCell]; the fields hold what the cell and the
    document gave, typed or not. *)
Record LinkedCell : Type := mkLinkedCell {
  value : string;
  row_header : MetaVal;
  column_header : MetaVal;
  normalized_unit : option string;
  page_number : MetaVal;
  context_snippet : string;
  source_document : MetaVal
}.

(** The dictionary [mapping] of [_normalize_unit]. *)
Definition unit_mapping : PyDict.t string :=
  [ ("tco2", "tCO2e"); ("tco2e", "tCO2e"); ("co2e", "tCO2e");
    ("mw", "MW"); ("gwh", "GWh"); ("m3", "m3"); ("m^3", "m3") ].

(** The canonical set of the docstring. *)
Definition canonical_units : list string := ["tCO2e"; "MW"; "GWh"; "m3"].

Definition _normalize_unit (raw_unit : option string) : option string :=
  match raw_unit with
  | None => None
  | Some EmptyString => None
  | Some raw =>
      let unit := remove_spaces (PyStr.lower raw) in
      Some (PyDict.get_default unit raw unit_mapping)
  end.

(** [_normalize_unit] on what [cell.get("unit")] gives: a string, [None],
    or an integer, which is falsy when 0 and has no [lower] otherwise. *)
Definition normalize_unit_of (v : MetaVal) : result (option string) :=
  match v with
  | MStr s => Return (_normalize_unit (Some s))
  | MNone => Return None
  | MInt n =>
      if Z.eqb n 0 then Return None
      else Raise (AttributeError "'int' object has no attribute 'lower'")
  end.

(** A table cell as the parser gets it: a dictionary. *)
Definition Cell : Type := PyDict.t MetaVal.

(** The page [_link_cell] works with. *)
Definition cell_page (cell : Cell) (document : Document) : MetaVal :=
  PyDict.get_default "page" (py_get "page" (metadata document)) cell.

Definition on_page (page : MetaVal) (chunk : Document) : bool :=
  MetaVal_eqb (py_get "page" (metadata chunk)) page.

Definition _link_cell (cell : Cell) (narrative_chunks : list Document)
  (document : Document) : result LinkedCell :=
  let page := cell_page cell document in
  let source :=
    PyDict.get_default "source" (MStr "unknown") (metadata document) in
  let same_page := filter (on_page page) narrative_chunks in
  let target_chunk :=
    match same_page with
    | chunk :: _ => chunk
    | [] =>
        match narrative_chunks with
        | chunk :: _ => chunk
        | [] => mkDocument "" []
        end
    end in
  unit <- normalize_unit_of (py_get "unit" cell) ;;
  Return
    (mkLinkedCell
       (strip (format_val (PyDict.get_default "value" (MStr "") cell)))
       (py_get "row_header" cell)
       (py_get "column_header" cell)
       unit
       page
       (page_content target_chunk)
       source).

(** A table: a dictionary whose ["cells"] entry lists the cells. *)
Definition Table : Type := PyDict.t (list Cell).

(** [parse_document].  [tables] stands for
    [document.metadata.get("tables", [])], which is a list of tables and
    so is passed beside the scalar metadata; [text_splitter] is
    [split_documents] of the splitter. *)
Definition parse_document
  (text_splitter : list Document -> result (list Document))
  (tables : list Table) (document : Document) : result (list LinkedCell) :=
  narrative_chunks <- text_splitter [document] ;;
  fold_left
    (fun acc table =>
       fold_left
         (fun acc cell =>
            linked_cells <- acc ;;
            linked <- _link_cell cell narrative_chunks document ;;
            Return (linked_cells ++ [linked])%list)
         (PyDict.get_default "cells" [] table) acc)
    tables (Return []).

(** All cells of the tables, table after table. *)
Definition all_cells (tables : list Table) : list Cell :=
  List.concat (map (PyDict.get_default "cells" []) tables).

(** The unit of the cell is something [_normalize_unit] can take: not an
    integer other than 0. *)
Definition unit_ok (cell : Cell) : Prop :=
  forall n, py_get "unit" cell = MInt n -> n = 0%Z.

(** ** [src/app_streamlit.py] *)

(** The newline character. *)
Definition nl : string := String (ascii_of_nat 10) EmptyString.

(** [s[:k]] on a string. *)
Definition str_slice_to (k : Z) (s : string) : string :=
  string_of_list_ascii (slice_to k (list_ascii_of_string s)).

(** [str(i)] for a counter. *)
Definition str_of_nat (i : nat) : string := PyStr.of_Z (Z.of_nat i).

Module AppStreamlit.

(** One entry of the list [format_sources] returns: a dictionary with
    exactly these five keys. *)
Record Source : Type := mkSource {
  id : nat;
  source : MetaVal;
  page : MetaVal;
  chunk : MetaVal;
  text : string
}.

Definition format_sources (retrieved_docs : list Document) (max_chars : Z)
  : list Source :=
  fold_left
    (fun sources '(i, d) =>
       (sources
          ++ [mkSource i
                (PyDict.get_default "source" (MStr "unknown") (metadata d))
                (PyDict.get_default "page" MNone (metadata d))
                (PyDict.get_default "chunk" MNone (metadata d))
                (str_slice_to max_chars (page_content d))])%list)
    (enumerate_from 1 retrieved_docs) [].

Definition max_chars_default : Z := 1200.

(** A chat model: [invoke] takes the messages, each a role and a text,
    and returns the content of the response, or raises. *)
Record ChatModel : Type := mkChatModel {
  invoke : list (string * string) -> result string
}.

Definition system_message : string :=
  "You are a Green Bond RAG assistant. Use ONLY the provided sources. "
  ++ "When you answer, include citations like [1], [2] that refer to the sources. "
  ++ "Do NOT repeat file names, page numbers, or the words SOURCE/PAGE/CHUNK in your answer. "
  ++ "If the answer is not in the sources, say you can't find it.".

(** The loop that fills [context_blocks]. *)
Definition context_blocks (retrieved_docs : list Document) : list string :=
  fold_left
    (fun context_blocks '(i, d) =>
       (context_blocks
          ++ [("Source [" ++ str_of_nat i ++ "]:" ++ nl
               ++ page_content d)%string])%list)
    (enumerate_from 1 retrieved_docs) [].

(** [prompt.format_messages(question=question, context=context)]: the
    system text has no placeholder, the human template has two. *)
Definition format_messages (question context : string)
  : list (string * string) :=
  [ ("system", system_message);
    ("human",
     "Question:" ++ nl ++ question ++ nl ++ nl ++ "Sources:" ++ nl
     ++ context) ].

Definition answer_question (llm : ChatModel) (question : string)
  (retrieved_docs : list Document) : result string :=
  let context :=
    String.concat (nl ++ nl ++ "---" ++ nl ++ nl)
      (context_blocks retrieved_docs) in
  let msg := format_messages question context in
  invoke llm msg.

(** What the function takes from outside: the constructor of the
    splitter, which gives the [split_text] of the splitter or raises, and
    [fitz.open], which gives the text of each page or raises. *)
Record PdfTools : Type := mkPdfTools {
  RecursiveCharacterTextSplitter :
    Z -> Z -> result (string -> result (list string));
  fitz_open : list Byte.byte -> result (list string)
}.

Definition chunk_document (source_name : string) (pno : nat) (ci : nat)
  (chunk : string) : Document :=
  mkDocument chunk
    [ ("source", MStr source_name);
      ("page", MInt (Z.of_nat pno + 1));
      ("chunk", MInt (Z.of_nat ci)) ].

(** The inner loop: one document per chunk of the page. *)
Definition add_chunks (source_name : string) (pno : nat)
  (chunks : list string) (docs : list Document) : list Document :=
  fold_left
    (fun docs '(ci, chunk) =>
       (docs ++ [chunk_document source_name pno ci chunk])%list)
    (enumerate chunks) docs.

(** The body of the loop over the pages. *)
Definition extract_page (split_text : string -> result (list string))
  (source_name : string) (acc : result (list Document))
  (page : nat * string) : result (list Document) :=
  let '(pno, text) := page in
  docs <- acc ;;
  let text := strip text in
  match text with
  | EmptyString => Return docs
  | _ =>
      chunks <- split_text text ;;
      Return (add_chunks source_name pno chunks docs)
  end.

Definition extract_pdf_to_chunked_docs (tools : PdfTools)
  (pdf_bytes : list Byte.byte) (source_name : string)
  (chunk_size chunk_overlap : Z) : result (list Document) :=
  split_text <-
    RecursiveCharacterTextSplitter tools chunk_size chunk_overlap ;;
  pdf <- fitz_open tools pdf_bytes ;;
  fold_left (extract_page split_text source_name) (enumerate pdf)
    (Return []).

(** What a page contributes to the result: nothing when its text is
    blank, and else one document per chunk of its text. *)
Definition page_gives (split_text : string -> result (list string))
  (source_name : string) (page : nat * string)
  (page_docs : list Document) : Prop :=
  (strip (snd page) = EmptyString /\ page_docs = [])
  \/ (strip (snd page) <> EmptyString
      /\ exists chunks,
           split_text (strip (snd page)) = Return chunks
           /\ page_docs
              = map (fun item =>
                       chunk_document source_name (fst page) (fst item)
                         (snd item))
                  (enumerate chunks)).

(** The order of reading: an earlier page, or the same page and an
    earlier chunk. *)
Definition position_lt (d1 d2 : Document) : Prop :=
  match py_get "page" (metadata d1), py_get "chunk" (metadata d1),
        py_get "page" (metadata d2), py_get "chunk" (metadata d2) with
  | MInt p1, MInt c1, MInt p2, MInt c2 =>
      (p1 < p2 \/ (p1 = p2 /\ c1 < c2))%Z
  | _, _, _, _ => False
  end.

End AppStreamlit.

(** ** [src/core/config.py] *)

(** What [json.load] gives and [json.dump] takes.  A dictionary holds
    each key once; [PyDict.get] reads the entry of the key. *)
#[warnings="-register-all"] Inductive json : Type :=
| JNull
| JBool (b : bool)
| JInt (n : Z)
| JFloat (x : float)
| JStr (s : string)
| JList (items : list json)
| JDict (entries : PyDict.t json).

(** [type(v).__name__] *)
Definition type_name (v : json) : string :=
  match v with
  | JNull => "NoneType"
  | JBool _ => "bool"
  | JInt _ => "int"
  | JFloat _ => "float"
  | JStr _ => "str"
  | JList _ => "list"
  | JDict _ => "dict"
  end.

Definition TypeError (msg : string) : exn := mkExn "TypeError" msg.

Module Config.

(** [pathlib] as the module uses it: [Path(s)] on a string, [str(p)],
    [p / name], and the home directory; [not_a_path] is the message of
    the [TypeError] that [Path] raises on a value of the named type. *)
Class Pathlib : Type := {
  path : Type;
  Path_of_str : string -> path;
  str_of_path : path -> string;
  joinpath : path -> string -> path;
  home : path;
  not_a_path : string -> string
}.

Section Config.
Context {PL : Pathlib}.

Definition CONFIG_DIR : path := joinpath home ".deskrag".
Definition CONFIG_FILE : path := joinpath CONFIG_DIR "config.json".

(** The fields hold what the constructor was given: [from_dict] passes
    on whatever the payload has under the two keys of the registry. *)
Record ModelRegistry : Type := mkModelRegistry {
  embeddings : json;
  llms : json
}.

Record AppConfig : Type := mkAppConfig {
  data_dir : path;
  cache_dir : path;
  model_registry : ModelRegistry
}.

(** [AppConfig()] *)
Definition AppConfig_default : AppConfig :=
  mkAppConfig (joinpath CONFIG_DIR "data") (joinpath CONFIG_DIR "cache")
    (mkModelRegistry (JList []) (JList [])).

Definition to_dict (self : AppConfig) : json :=
  JDict
    [ ("data_dir", JStr (str_of_path (data_dir self)));
      ("cache_dir", JStr (str_of_path (cache_dir self)));
      ("model_registry",
       JDict [ ("embeddings", embeddings (model_registry self));
               ("llms", llms (model_registry self)) ]) ].

(** [v.get(key)] on a value that may be no dictionary; [None] of the
    option stands for the default being taken. *)
Definition dict_get (v : json) (key : string) : result (option json) :=
  match v with
  | JDict entries => Return (PyDict.get key entries)
  | _ =>
      Raise (AttributeError
               ("'" ++ type_name v ++ "' object has no attribute 'get'"))
  end.

(** [Path(payload.get(key, default))]: a path given as default is taken
    as it is, a string is parsed, anything else is refused. *)
Definition Path_of (v : option json) (default : path) : result path :=
  match v with
  | None => Return default
  | Some (JStr s) => Return (Path_of_str s)
  | Some v => Raise (TypeError (not_a_path (type_name v)))
  end.

Definition or_default (v : option json) (default : json) : json :=
  match v with
  | Some v => v
  | None => default
  end.

Definition from_dict (payload : json) : result AppConfig :=
  registry <- dict_get payload "model_registry" ;;
  let registry := or_default registry (JDict []) in
  data_dir <- (v <- dict_get payload "data_dir" ;;
               Path_of v (joinpath CONFIG_DIR "data")) ;;
  cache_dir <- (v <- dict_get payload "cache_dir" ;;
                Path_of v (joinpath CONFIG_DIR "cache")) ;;
  embeddings <- dict_get registry "embeddings" ;;
  llms <- dict_get registry "llms" ;;
  Return
    (mkAppConfig data_dir cache_dir
       (mkModelRegistry (or_default embeddings (JList []))
          (or_default llms (JList [])))).

(** The file system as the module uses it, over a state [S]:
    [p.mkdir(parents=True, exist_ok=True)], [p.exists()], reading a file
    with [json.load] and writing one with [json.dump]. *)
Record OS (S : Type) : Type := mkOS {
  mkdir : path -> Run S unit;
  path_exists : path -> S -> bool;
  json_load : path -> Run S json;
  json_dump : json -> path -> Run S unit
}.

Arguments mkdir {S}.
Arguments path_exists {S}.
Arguments json_load {S}.
Arguments json_dump {S}.

Section Files.
Context {S : Type} (os : OS S).

Definition ensure_dirs (config : AppConfig) : Run S unit :=
  fold_left (fun done path => done ;;; mkdir os path)
    [CONFIG_DIR; data_dir config; cache_dir config] (ret tt).

Definition save_config (config : AppConfig) : Run S unit :=
  ensure_dirs config ;;;
  json_dump os (to_dict config) CONFIG_FILE.

Definition load_config : Run S AppConfig :=
  there <~ gets (path_exists os CONFIG_FILE) ;;
  config <~ (if there : bool
             then payload <~ json_load os CONFIG_FILE ;;
                  lift (from_dict payload)
             else save_config AppConfig_default ;;;
                  ret AppConfig_default) ;;
  ensure_dirs config ;;;
  ret config.

End Files.
End Config.

Arguments mkdir {PL S}.
Arguments path_exists {PL S}.
Arguments json_load {PL S}.
Arguments json_dump {PL S}.

End Config.

(** ** Sample inputs for the rest of the code *)

Module SampleStore.

(** Loaders that find one chunk in every PDF and nothing elsewhere. *)
Definition loaders : Loaders :=
  mkLoaders (fun _ => Return [Sample.solar]) (fun _ => Return [])
    (fun _ => Return []) (fun _ => Return [])
    (fun _ => Return (640, 480)%Z) (fun docs => Return docs).

(** An index that returns its documents, first added first, with their
    rank as distance. *)
Definition index_of (docs : list Document) : @FAISS Q :=
  mkFAISS (fun _ k =>
             Return (firstn (Z.to_nat k)
                       (map (fun item => (snd item, inject_Z (Z.of_nat (fst item))))
                          (enumerate docs)))).

Definition backend : @Backend Q :=
  mkBackend (fun docs => Return (index_of docs))
    (fun index docs => Return index)
    (fun docs => Return (Sample.bm25_of docs)).

(** The same backend, with constructors that raise on an empty list
    of documents. *)
Definition strict_backend : @Backend Q :=
  mkBackend
    (fun docs =>
       match docs with
       | [] => Raise (mkExn "IndexError" "list index out of range")
       | _ :: _ => Return (index_of docs)
       end)
    (fun index docs => Return index)
    (fun docs =>
       match docs with
       | [] => Raise (mkExn "ZeroDivisionError" "division by zero")
       | _ :: _ => Return (Sample.bm25_of docs)
       end).

Definition report : Path := mkPath "/data/report.pdf" ".pdf" "report.pdf".

Definition sheet : Path := mkPath "/data/sheet.XLSX" ".XLSX" "sheet.XLSX".

Definition started : @World Q := mkWorld fresh_store None.

Definition ingested : @World Q :=
  mkWorld
    (mkVectorStore (Some (index_of [Sample.solar]))
       (Some (Sample.bm25_of [Sample.solar])) [Sample.solar])
    (Some (index_of [Sample.solar])).

End SampleStore.

Module SampleParser.

Definition energy : Cell :=
  [("value", MStr " 42 "); ("unit", MStr "GWH"); ("page", MInt 2)].

Definition emissions : Cell :=
  [("value", MInt 7); ("unit", MStr "t CO2 e"); ("row_header", MStr "2023")].

Definition count : Cell := [("value", MInt 3); ("unit", MInt 0)].

Definition tables : list Table :=
  [ [("cells", [energy; emissions])]; [("title", [])]; [("cells", [count])] ].

Definition splitter (docs : list Document) : result (list Document) :=
  Return [Sample.solar; Sample.wind].

End SampleParser.

Module SampleApp.

Definition llm : AppStreamlit.ChatModel :=
  AppStreamlit.mkChatModel (fun msg => Return "Solar and wind [1], [2].").

(** A splitter that cuts at every semicolon, and one that fails. *)
Fixpoint cut (current : string) (s : string) : list string :=
  match s with
  | EmptyString => [current]
  | String c s' =>
      if Ascii.eqb c ";" then current :: cut EmptyString s'
      else cut (current ++ String c EmptyString) s'
  end.

Definition tools (pages : list string) : AppStreamlit.PdfTools :=
  AppStreamlit.mkPdfTools
    (fun chunk_size chunk_overlap => Return (fun text => Return (cut "" text)))
    (fun pdf_bytes => Return pages).


Definition report : list string :=
  [" Solar park;Wind farm "; "   "; "Audit"].


End SampleApp.

Module SampleConfig.

(** Paths as their strings. *)
Definition posix : Config.Pathlib :=
  {| Config.path := string;
     Config.Path_of_str := fun s => s;
     Config.str_of_path := fun p => p;
     Config.joinpath := fun p name => p ++ "/" ++ name;
     Config.home := "/home/user";
     Config.not_a_path :=
       fun type => "expected str, bytes or os.PathLike object, not " ++ type |}.

Definition custom : @Config.AppConfig posix :=
  Config.mkAppConfig (PL := posix) "/srv/esg/data" "/tmp/esg-cache"
    (Config.mkModelRegistry (JList [JStr "clip"])
       (JList [JStr "gpt-4o-mini"])).

(** A file system that knows the directories made and what each file
    holds. *)
Record Disk : Type := mkDisk {
  dirs : list string;
  files : PyDict.t json
}.

Definition os : @Config.OS posix Disk :=
  Config.mkOS (PL := posix) Disk
    (fun p => modify (fun disk => mkDisk (p :: dirs disk) (files disk)))
    (fun p disk => PyDict.mem p (files disk))
    (fun p disk =>
       match PyDict.get p (files disk) with
       | Some v => (Return v, disk)
       | None => (Raise (mkExn "FileNotFoundError" p), disk)
       end)
    (fun v p =>
       modify (fun disk => mkDisk (dirs disk) (PyDict.set p v (files disk)))).

Definition blank : Disk := mkDisk [] [].

Definition broken : Disk :=
  mkDisk [] [("/home/user/.deskrag/config.json", JDict [("data_dir", JInt 3)])].

End SampleConfig.

(** * Properties *)

(** ** Strings *)


Lemma string_app_assoc (a b c : string) : (a ++ b) ++ c = a ++ b ++ c.
Proof. induction a as [|x a IH]; simpl; [reflexivity | now rewrite IH]. Qed.



Lemma lower_ascii_idem (c : ascii) :
  PyStr.lower_ascii (PyStr.lower_ascii c) = PyStr.lower_ascii c.
Proof. destruct c as [[] [] [] [] [] [] [] []]; reflexivity. Qed.

Lemma lower_idem (s : string) : PyStr.lower (PyStr.lower s) = PyStr.lower s.
Proof.
  induction s as [|c s IH]; simpl; [reflexivity|].
  now rewrite lower_ascii_idem, IH.
Qed.



(** ** Claim detection *)







(** The three cases the specification lists for the detector. *)
Example detect_claims_solar :
  map fst (detect_claims
             [ mkDocument "Solar capacity increased" [];
               mkDocument "Quarterly board minutes" [];
               mkDocument "SOLAR" [] ])
  = [ mkDocument "Solar capacity increased" []; mkDocument "SOLAR" [] ].
Proof. reflexivity. Qed.

(** ** The GreenImplement ratio *)



Lemma counted_functional {A : Type} (P : A -> Prop) (items : list A)
  (n m : nat) : counted P items n -> counted P items m -> n = m.
Proof.
  intros Hn; revert m; induction Hn; intros m Hm; inversion Hm; subst;
    try reflexivity; try contradiction; auto.
Qed.


(** ** Dictionaries *)

Section DictFacts.
Context {V : Type}.
Implicit Types (k : string) (v : V) (d : PyDict.t V).

Lemma get_set_same k v d : PyDict.get k (PyDict.set k v d) = Some v.
Proof.
  induction d as [|[k' v'] d IH]; simpl.
  - now rewrite String.eqb_refl.
  - destruct (String.eqb k k') eqn:E; simpl.
    + now rewrite String.eqb_refl.
    + now rewrite E.
Qed.

Lemma get_set_other k k' v d :
  k <> k' -> PyDict.get k' (PyDict.set k v d) = PyDict.get k' d.
Proof.
  intros Hne; induction d as [|[k0 v0] d IH]; simpl.
  - apply String.eqb_neq in Hne; rewrite String.eqb_sym in Hne.
    now rewrite Hne.
  - destruct (String.eqb k k0) eqn:E; simpl.
    + apply String.eqb_eq in E; subst k0.
      apply String.eqb_neq in Hne; rewrite String.eqb_sym in Hne.
      now rewrite Hne.
    + now rewrite IH.
Qed.

Lemma in_keys_set k k' v d :
  In k' (PyDict.keys (PyDict.set k v d)) <-> k' = k \/ In k' (PyDict.keys d).
Proof.
  induction d as [|[k0 v0] d IH]; simpl.
  - intuition.
  - destruct (String.eqb k k0) eqn:E; simpl.
    + apply String.eqb_eq in E; subst k0; intuition.
    + rewrite IH; intuition.
Qed.

Lemma NoDup_keys_set k v d :
  NoDup (PyDict.keys d) -> NoDup (PyDict.keys (PyDict.set k v d)).
Proof.
  induction d as [|[k0 v0] d IH]; simpl; intros Hnd.
  - repeat constructor; intros [].
  - inversion Hnd as [|? ? Hnotin Hnd']; subst.
    destruct (String.eqb k k0) eqn:E; simpl.
    + apply String.eqb_eq in E; subst k0; now constructor.
    + constructor; [|now apply IH].
      rewrite in_keys_set; intros [->|Hin]; [|contradiction].
      now rewrite String.eqb_refl in E.
Qed.

Lemma in_set k v d entry :
  In entry (PyDict.set k v d) -> entry = (k, v) \/ In entry d.
Proof.
  induction d as [|[k0 v0] d IH]; simpl.
  - intuition.
  - destruct (String.eqb k k0); simpl; intuition.
Qed.

Lemma get_in k v d : PyDict.get k d = Some v -> In (k, v) d.
Proof.
  induction d as [|[k0 v0] d IH]; simpl; [discriminate|].
  destruct (String.eqb k k0) eqn:E.
  - apply String.eqb_eq in E; subst k0; intros [= ->]; now left.
  - intros Hget; right; now apply IH.
Qed.

Lemma in_get k v d :
  NoDup (PyDict.keys d) -> In (k, v) d -> PyDict.get k d = Some v.
Proof.
  induction d as [|[k0 v0] d IH]; simpl; intros Hnd Hin; [contradiction|].
  inversion Hnd as [|? ? Hnotin Hnd']; subst.
  destruct Hin as [[= -> ->]|Hin].
  - now rewrite String.eqb_refl.
  - destruct (String.eqb k k0) eqn:E.
    + apply String.eqb_eq in E; subst k0.
      exfalso; apply Hnotin.
      change k with (fst (k, v)); now apply in_map.
    + now apply IH.
Qed.

End DictFacts.

(** ** The two loops of [search_hybrid] *)

Section LoopFacts.
Context {F : Type} {HF : PyFloat F} {HH : PyHash}.
Implicit Types (alpha : F) (key : string) (combined : PyDict.t (Document * F)).

Lemma dense_loop_get alpha key (vector_hits : list (Document * F)) :
  forall start combined,
    PyDict.get key
      (fold_left (dense_step alpha) (enumerate_from start vector_hits) combined)
    = entry_after_dense alpha start key vector_hits (PyDict.get key combined).
Proof.
  unfold entry_after_dense.
  induction vector_hits as [|[doc score] rest IH]; intros start combined.
  - reflexivity.
  - cbn [enumerate_from fold_left last_dense_from fst].
    rewrite IH.
    destruct (last_dense_from (S start) key rest) as [[r found]|];
      [reflexivity|].
    unfold dense_step.
    destruct (String.eqb (doc_key doc) key) eqn:E.
    + apply String.eqb_eq in E; subst key; apply get_set_same.
    + apply String.eqb_neq in E; now apply get_set_other.
Qed.

Lemma lexical_loop_get alpha key (bm25_hits : list Document) :
  forall start combined,
    PyDict.get key
      (fold_left (bm25_step alpha) (enumerate_from start bm25_hits) combined)
    = entry_after_lexical alpha start key bm25_hits (PyDict.get key combined).
Proof.
  induction bm25_hits as [|doc rest IH]; intros start combined.
  - cbn; destruct (PyDict.get key combined) as [[d0 s0]|]; reflexivity.
  - cbn [enumerate_from fold_left].
    rewrite IH.
    unfold entry_after_lexical, lexical_hits_of_from.
    cbn [enumerate_from filter snd].
    unfold bm25_step.
    destruct (String.eqb (doc_key doc) key) eqn:E.
    + apply String.eqb_eq in E; subst key.
      destruct (PyDict.get (doc_key doc) combined) as [[d0 s0]|];
        rewrite get_set_same; reflexivity.
    + apply String.eqb_neq in E.
      destruct (PyDict.get (doc_key doc) combined) as [[d0 s0]|];
        rewrite get_set_other by assumption; reflexivity.
Qed.

(** What [combined] holds under any key. *)
Lemma combined_scores_get alpha key vector_hits bm25_hits :
  PyDict.get key (combined_scores alpha vector_hits bm25_hits)
  = entry_after_lexical alpha 0 key bm25_hits
      (entry_after_dense alpha 0 key vector_hits None).
Proof.
  unfold combined_scores, enumerate.
  now rewrite lexical_loop_get, dense_loop_get.
Qed.

End LoopFacts.

(** ** Ranks and keys *)

Section RankFacts.
Context {F : Type} {HF : PyFloat F} {HH : PyHash}.
Implicit Types (alpha : F) (key : string).

Lemma last_dense_absent key (vector_hits : list (Document * F)) :
  forall start,
    ~ In key (dense_keys vector_hits) ->
    last_dense_from start key vector_hits = None.
Proof.
  induction vector_hits as [|hit rest IH]; intros start Hnot; simpl.
  - reflexivity.
  - simpl in Hnot; rewrite IH by tauto.
    destruct (String.eqb (doc_key (fst hit)) key) eqn:E; [|reflexivity].
    apply String.eqb_eq in E; tauto.
Qed.

Lemma last_dense_split key (pre : list (Document * F)) hit post :
  forall start,
    doc_key (fst hit) = key ->
    ~ In key (dense_keys post) ->
    last_dense_from start key (pre ++ hit :: post)%list
    = Some (start + List.length pre, fst hit).
Proof.
  induction pre as [|x pre IH]; intros start Hkey Hnot; simpl.
  - rewrite last_dense_absent by assumption.
    apply String.eqb_eq in Hkey; rewrite Hkey.
    now rewrite Nat.add_0_r.
  - rewrite IH by assumption.
    now rewrite Nat.add_succ_r.
Qed.



(** The ranks listed for a key are the ranks at which it occurs. *)
Lemma in_lexical_hits key (bm25_hits : list Document) :
  forall start s doc,
    In (s, doc) (lexical_hits_of_from start key bm25_hits)
    <-> (start <= s)%nat /\ nth_error bm25_hits (s - start) = Some doc
        /\ doc_key doc = key.
Proof.
  unfold lexical_hits_of_from.
  induction bm25_hits as [|x rest IH]; intros start s doc.
  - simpl; split; [tauto|].
    intros [_ [Hnth _]]; destruct (s - start)%nat; discriminate.
  - cbn [enumerate_from filter snd].
    assert (Hrest : In (s, doc)
                      (filter (fun item => String.eqb (doc_key (snd item)) key)
                         (enumerate_from (S start) rest))
                    <-> (start < s)%nat /\ nth_error rest (s - S start) = Some doc
                        /\ doc_key doc = key)
      by (rewrite IH; intuition lia).
    assert (Hhead : (s, doc) = (start, x) /\ doc_key x = key
                    \/ (start < s)%nat /\ nth_error rest (s - S start) = Some doc
                       /\ doc_key doc = key
                    <-> (start <= s)%nat
                        /\ nth_error (x :: rest) (s - start) = Some doc
                        /\ doc_key doc = key).
    { split.
      - intros [[[= -> ->] Hk] | [Hlt [Hnth Hk]]].
        + rewrite Nat.sub_diag; simpl; auto.
        + replace (s - start)%nat with (S (s - S start)) by lia.
          simpl; repeat split; auto; lia.
      - intros [Hle [Hnth Hk]].
        destruct (Nat.eq_dec s start) as [->|Hne].
        + rewrite Nat.sub_diag in Hnth; simpl in Hnth.
          injection Hnth as ->; left; auto.
        + right; replace (s - start)%nat with (S (s - S start)) in Hnth by lia.
          simpl in Hnth; repeat split; auto; lia. }
    destruct (String.eqb (doc_key x) key) eqn:E.
    + apply String.eqb_eq in E.
      simpl; rewrite Hrest, <- Hhead.
      split; [intros [Heq | Hr]|intros [[Heq _] | Hr]]; auto.
    + apply String.eqb_neq in E.
      rewrite Hrest, <- Hhead.
      split; [auto | intros [[_ Hk] | Hr]; [contradiction | auto]].
Qed.

Lemma in_lexical_ranks key (bm25_hits : list Document) (s : nat) :
  In s (lexical_ranks key bm25_hits)
  <-> exists doc, nth_error bm25_hits s = Some doc /\ doc_key doc = key.
Proof.
  unfold lexical_ranks; rewrite in_map_iff; split.
  - intros [[s' doc] [Hs Hin]]; simpl in Hs; subst s'.
    apply in_lexical_hits in Hin; rewrite Nat.sub_0_r in Hin.
    exists doc; tauto.
  - intros [doc [Hnth Hk]]; exists (s, doc); split; [reflexivity|].
    apply in_lexical_hits; rewrite Nat.sub_0_r; repeat split; auto; lia.
Qed.


End RankFacts.

(** ** The merged dictionary is keyed by document *)

Section KeyFacts.
Context {F : Type} {HF : PyFloat F} {HH : PyHash}.
Implicit Types (alpha : F) (combined : PyDict.t (Document * F)).

Lemma keyed_by_doc_set combined (doc : Document) (score : F) :
  keyed_by_doc combined ->
  keyed_by_doc (PyDict.set (doc_key doc) (doc, score) combined).
Proof.
  intros [Hnd Hall]; split.
  - now apply NoDup_keys_set.
  - apply Forall_forall; intros entry Hin.
    apply in_set in Hin; destruct Hin as [->|Hin]; [reflexivity|].
    rewrite Forall_forall in Hall; now apply Hall.
Qed.

Lemma keyed_by_doc_dense_step alpha combined item :
  keyed_by_doc combined -> keyed_by_doc (dense_step alpha combined item).
Proof.
  destruct item as [rank [doc score]]; apply keyed_by_doc_set.
Qed.

Lemma keyed_by_doc_bm25_step alpha combined item :
  keyed_by_doc combined -> keyed_by_doc (bm25_step alpha combined item).
Proof.
  destruct item as [rank doc]; intros Hk; unfold bm25_step.
  destruct (PyDict.get (doc_key doc) combined) as [[doc0 score0]|] eqn:Hget.
  - apply get_in in Hget.
    destruct Hk as [Hnd Hall]; rewrite Forall_forall in Hall.
    pose proof (Hall _ Hget) as Hkey; simpl in Hkey; rewrite Hkey.
    apply keyed_by_doc_set; split; [assumption | now apply Forall_forall].
  - now apply keyed_by_doc_set.
Qed.

Lemma keyed_by_doc_fold {A : Type}
  (step : PyDict.t (Document * F) -> A -> PyDict.t (Document * F))
  (items : list A) :
  (forall combined item, keyed_by_doc combined ->
                         keyed_by_doc (step combined item)) ->
  forall combined, keyed_by_doc combined ->
                   keyed_by_doc (fold_left step items combined).
Proof.
  intros Hstep; induction items as [|item items IH]; intros combined Hk.
  - exact Hk.
  - simpl; apply IH, Hstep, Hk.
Qed.

Lemma keyed_by_doc_combined alpha vector_hits bm25_hits :
  keyed_by_doc (combined_scores alpha vector_hits bm25_hits).
Proof.
  unfold combined_scores.
  apply keyed_by_doc_fold; [apply keyed_by_doc_bm25_step|].
  apply keyed_by_doc_fold; [apply keyed_by_doc_dense_step|].
  split; constructor.
Qed.


Lemma keyed_by_doc_value_get combined (doc : Document) (score : F) :
  keyed_by_doc combined ->
  In (doc, score) (PyDict.values combined) ->
  PyDict.get (doc_key doc) combined = Some (doc, score).
Proof.
  intros [Hnd Hall] Hin.
  apply in_map_iff in Hin; destruct Hin as [[key value] [Hv Hin]].
  simpl in Hv; subst value.
  rewrite Forall_forall in Hall.
  pose proof (Hall _ Hin) as Hkey; simpl in Hkey; subst key.
  now apply in_get.
Qed.

End KeyFacts.

(** ** Sorting and slicing *)

Section SortFacts.
Context {A F : Type} {HF : PyFloat F} (key : A -> F).

Lemma insert_desc_perm (x : A) (l : list A) :
  Permutation (insert_desc key x l) (x :: l).
Proof.
  induction l as [|y l IH]; simpl.
  - reflexivity.
  - destruct (flt (key x) (key y)).
    + rewrite IH; apply perm_swap.
    + reflexivity.
Qed.

Lemma sorted_reverse_perm (l : list A) : Permutation (sorted_reverse key l) l.
Proof.
  induction l as [|x l IH]; simpl.
  - reflexivity.
  - rewrite insert_desc_perm; now constructor.
Qed.

End SortFacts.

Lemma slice_to_firstn {A : Type} (k : Z) (l : list A) :
  exists n, slice_to k l = firstn n l.
Proof.
  unfold slice_to; destruct (k <? 0)%Z; eexists; reflexivity.
Qed.

Lemma slice_to_length {A : Type} (k : Z) (l : list A) :
  (0 <= k)%Z -> (Z.of_nat (List.length (slice_to k l)) <= k)%Z.
Proof.
  intros Hk; unfold slice_to.
  destruct (k <? 0)%Z eqn:E; [apply Z.ltb_lt in E; lia|].
  pose proof (firstn_le_length (Z.to_nat k) l); lia.
Qed.

Lemma in_firstn {A : Type} (n : nat) (l : list A) (x : A) :
  In x (firstn n l) -> In x l.
Proof.
  revert l; induction n as [|n IH]; intros [|y l]; simpl; try tauto.
  intros [->|Hin]; [now left | right; now apply IH].
Qed.


Lemma StronglySorted_firstn {A : Type} (R : A -> A -> Prop) (n : nat)
  (l : list A) : StronglySorted R l -> StronglySorted R (firstn n l).
Proof.
  revert l; induction n as [|n IH]; intros [|y l] Hs; simpl;
    try constructor.
  - inversion Hs; subst; now apply IH.
  - inversion Hs as [|? ? _ Hall]; subst.
    rewrite Forall_forall in *; intros z Hz; apply Hall.
    now apply in_firstn in Hz.
Qed.

(** The sort needs two facts of the comparison, on the keys it meets:
    [a < b] excludes [b < a], and "not below" is transitive.  Then no
    item of the result is below a later one. *)
Section SortedAny.
Context {A F : Type} {HF : PyFloat F} (key : A -> F) (good : F -> Prop).
Hypothesis flt_asym : forall x y : F, flt x y = true -> flt y x = false.
Hypothesis flt_negtrans :
  forall x y z : F,
    good x -> good y -> good z ->
    flt x y = false -> flt y z = false -> flt x z = false.

Lemma insert_desc_not_below (x : A) (l : list A) :
  good (key x) -> Forall (fun y => good (key y)) l ->
  StronglySorted (not_below key) l ->
  StronglySorted (not_below key) (insert_desc key x l).
Proof.
  intros Hx; induction l as [|y l IH]; intros Hgood Hs; simpl.
  - repeat constructor.
  - inversion Hs as [|? ? Hs' Hall]; subst.
    inversion Hgood as [|? ? Hy Hgood']; subst.
    destruct (flt (key x) (key y)) eqn:E.
    + constructor; [now apply IH|].
      eapply Permutation_Forall; [symmetry; apply insert_desc_perm|].
      constructor; [now apply flt_asym | assumption].
    + constructor; [assumption|].
      constructor; [exact E|].
      rewrite Forall_forall in *; intros z Hz.
      apply (flt_negtrans _ (key y)); auto.
      now apply Hall.
Qed.

Lemma sorted_reverse_not_below (l : list A) :
  Forall (fun y => good (key y)) l ->
  StronglySorted (not_below key) (sorted_reverse key l).
Proof.
  induction l as [|x l IH]; intros Hgood; simpl.
  - constructor.
  - inversion Hgood; subst.
    apply insert_desc_not_below; auto.
    eapply Permutation_Forall; [symmetry; apply sorted_reverse_perm|].
    assumption.
Qed.

End SortedAny.

Lemma StronglySorted_weaken {A : Type} (R R' : A -> A -> Prop) (l : list A)
  (P : A -> Prop) :
  (forall a b, P a -> P b -> R a b -> R' a b) ->
  Forall P l -> StronglySorted R l -> StronglySorted R' l.
Proof.
  intros Hweak Hall Hs; induction Hs as [|a l Hs IH Hfa].
  - constructor.
  - inversion Hall as [|? ? Pa Hall']; subst.
    constructor; [now apply IH|].
    rewrite Forall_forall in *; intros b Hb; apply Hweak; auto.
Qed.

(** Among the rationals the comparison is a total order. *)
Lemma sorted_reverse_sorted {A : Type} (key : A -> Q) (l : list A) :
  StronglySorted (key_ge key) (sorted_reverse key l).
Proof.
  assert (Hflt : forall x y : Q, flt x y = false <-> (y <= x)%Q).
  { intros x y; simpl; rewrite negb_false_iff; apply Qle_bool_iff. }
  apply (StronglySorted_weaken (not_below key) _ _ (fun _ => True)).
  - intros a b _ _; apply Hflt.
  - apply Forall_forall; auto.
  - apply (sorted_reverse_not_below key (fun _ => True)).
    + intros x y Hxy; apply Hflt.
      destruct (flt y x) eqn:E; [|now apply Hflt].
      simpl in Hxy, E; apply negb_true_iff in Hxy, E.
      destruct (Qlt_le_dec y x) as [Hlt|Hle].
      * apply Qlt_le_weak, Qle_bool_iff in Hlt; congruence.
      * apply Qle_bool_iff in Hle; congruence.
    + intros x y z _ _ _ Hxy Hyz.
      apply Hflt; apply Hflt in Hxy, Hyz; eapply Qle_trans; eassumption.
    + apply Forall_forall; auto.
Qed.

(** In binary64 the comparison is a total order away from NaN. *)
Ltac split_compares :=
  repeat match goal with
         | |- context [(?x ?= ?y)%Z] => destruct (Z.compare_spec x y)
         | |- context [Pos.compare_cont Eq ?x ?y] =>
             change (Pos.compare_cont Eq x y) with (Pos.compare x y);
             destruct (Pos.compare_spec x y)
         end.

Lemma SFltb_negtrans (a b c : spec_float) :
  a <> S754_nan -> b <> S754_nan -> c <> S754_nan ->
  SFltb a b = false -> SFltb b c = false -> SFltb a c = false.
Proof.
  unfold SFltb, SFcompare.
  destruct a as [[]|[]| |[] ma ea]; destruct b as [[]|[]| |[] mb eb];
    destruct c as [[]|[]| |[] mc ec]; intros Ha Hb Hc;
    try congruence; try reflexivity; try discriminate;
    split_compares; simpl; intros; subst; try congruence; try lia.
Qed.

Lemma SFltb_asym (a b : spec_float) : SFltb a b = true -> SFltb b a = false.
Proof.
  unfold SFltb, SFcompare.
  destruct a as [[]|[]| |[] ma ea]; destruct b as [[]|[]| |[] mb eb];
    try congruence; try reflexivity; try discriminate;
    split_compares; simpl; intros; subst; try congruence; try lia.
Qed.

Lemma SFltb_false_leb (a b : spec_float) :
  a <> S754_nan -> b <> S754_nan -> SFltb a b = false -> SFleb b a = true.
Proof.
  unfold SFltb, SFleb, SFcompare.
  destruct a as [[]|[]| |[] ma ea]; destruct b as [[]|[]| |[] mb eb];
    intros Ha Hb;
    try congruence; try reflexivity; try discriminate;
    split_compares; simpl; intros; subst; try congruence; try lia.
Qed.

Lemma not_nan_Prim2SF (x : float) : not_nan x -> Prim2SF x <> S754_nan.
Proof.
  unfold not_nan, PrimFloat.is_nan; intros Hx Hnan.
  rewrite eqb_spec, Hnan in Hx; discriminate.
Qed.

Lemma sorted_reverse_sorted_binary64 {A : Type} (key : A -> float)
  (l : list A) :
  Forall (fun y => not_nan (key y)) l ->
  StronglySorted (float_ge key) (sorted_reverse key l).
Proof.
  intros Hgood.
  apply (StronglySorted_weaken (not_below key) _ _
           (fun y => not_nan (key y))).
  - intros a b Ha Hb Hab; unfold not_below, float_ge in *; simpl in Hab.
    rewrite ltb_spec in Hab; rewrite leb_spec.
    apply SFltb_false_leb; auto using not_nan_Prim2SF.
  - eapply Permutation_Forall; [symmetry; apply sorted_reverse_perm|].
    assumption.
  - apply (sorted_reverse_not_below key not_nan); [| |assumption].
    + intros x y; simpl; rewrite !ltb_spec; apply SFltb_asym.
    + intros x y z Hx Hy Hz; simpl; rewrite !ltb_spec.
      apply SFltb_negtrans; auto using not_nan_Prim2SF.
Qed.

(** ** The merged score of a key *)

Section ScoreFacts.
Context {F : Type} {HF : PyFloat F} {HH : PyHash}.
Implicit Types (alpha : F) (key : string).

Lemma search_hybrid_returns (self : VectorStore) query k alpha
  vector_hits bm25_hits :
  retrieves self query k vector_hits bm25_hits ->
  search_hybrid self query k alpha
  = Return (ranked_top k (combined_scores alpha vector_hits bm25_hits)).
Proof.
  intros [store [Hstore [Hdense Hlex]]].
  unfold search_hybrid; rewrite Hstore, Hdense; simpl.
  now rewrite Hlex.
Qed.

Lemma in_ranked_top k (combined : PyDict.t (Document * F)) entry :
  In entry (ranked_top k combined) -> In entry (PyDict.values combined).
Proof.
  unfold ranked_top; intros Hin.
  destruct (slice_to_firstn k (sorted_reverse snd (PyDict.values combined)))
    as [n Hn].
  rewrite Hn in Hin; apply in_firstn in Hin.
  eapply Permutation_in; [apply sorted_reverse_perm | exact Hin].
Qed.

(** An entry of the result is the entry of its key in [combined]. *)
Lemma ranked_top_get k alpha vector_hits bm25_hits doc score :
  In (doc, score) (ranked_top k (combined_scores alpha vector_hits bm25_hits)) ->
  PyDict.get (doc_key doc) (combined_scores alpha vector_hits bm25_hits)
  = Some (doc, score).
Proof.
  intros Hin; apply keyed_by_doc_value_get.
  - apply keyed_by_doc_combined.
  - now apply in_ranked_top in Hin.
Qed.

(** The last dense hit of a key decides the dense part; every lexical
    hit of the key adds its term. *)
Lemma combined_get_dense alpha (pre : list (Document * F)) hit post bm25_hits :
  ~ In (doc_key (fst hit)) (dense_keys post) ->
  PyDict.get (doc_key (fst hit))
    (combined_scores alpha (pre ++ hit :: post)%list bm25_hits)
  = Some (fst hit,
          add_lexical alpha (dense_term alpha (List.length pre))
            (lexical_ranks (doc_key (fst hit)) bm25_hits)).
Proof.
  intros Hpost.
  rewrite combined_scores_get; unfold entry_after_dense.
  rewrite (last_dense_split _ pre hit post 0 eq_refl Hpost).
  reflexivity.
Qed.

Lemma combined_get_lexical alpha vector_hits bm25_hits key s more :
  ~ In key (dense_keys vector_hits) ->
  lexical_ranks key bm25_hits = s :: more ->
  exists doc,
    nth_error bm25_hits s = Some doc /\ doc_key doc = key /\
    PyDict.get key (combined_scores alpha vector_hits bm25_hits)
    = Some (doc, add_lexical alpha (lexical_term alpha s) more).
Proof.
  intros Hnot Hranks.
  rewrite combined_scores_get; unfold entry_after_dense.
  rewrite last_dense_absent by assumption.
  unfold lexical_ranks in Hranks; unfold entry_after_lexical.
  destruct (lexical_hits_of_from 0 key bm25_hits) as [|[s0 doc] rest] eqn:E;
    [discriminate|].
  simpl in Hranks; injection Hranks as -> <-.
  assert (Hin : In (s, doc) (lexical_hits_of_from 0 key bm25_hits))
    by (rewrite E; now left).
  apply in_lexical_hits in Hin; rewrite Nat.sub_0_r in Hin.
  exists doc; tauto.
Qed.







End ScoreFacts.

(** ** Range of the terms *)






(** A later rank never has the larger dense term. *)
Lemma inv_rank_Q_antitone (r r' : nat) :
  (r <= r')%nat -> (inv_rank (F := Q) r' <= inv_rank (F := Q) r)%Q.
Proof.
  intros Hle; unfold inv_rank; cbn [truediv Q_float].
  remember (1 + Z.of_nat r)%Z as n eqn:En.
  remember (1 + Z.of_nat r')%Z as n' eqn:En'.
  destruct n as [|p|p]; try lia; destruct n' as [|p'|p']; try lia.
  unfold Qdiv, Qinv, inject_Z, Qmult, Qle; simpl; lia.
Qed.

Lemma dense_term_Q_antitone (alpha : Q) (r r' : nat) :
  (0 <= alpha)%Q -> (r <= r')%nat ->
  (dense_term alpha r' <= dense_term alpha r)%Q.
Proof.
  intros Ha Hle; unfold dense_term; cbn [fmul Q_float].
  rewrite !(Qmult_comm alpha).
  apply Qmult_le_compat_r; [now apply inv_rank_Q_antitone | assumption].
Qed.

(** ** Hybrid ranking: the claims *)

(** The literal [0.6] is the binary64 number that [3 / 5] rounds to. *)
Example alpha_default_binary64 :
  alpha_default (F := float) = 0x1.3333333333333p-1%float.
Proof. reflexivity. Qed.


(** C9: a key that occurs at several dense ranks keeps the term of its
    last dense occurrence only (the document and [alpha * 1/(1+r)] of
    the highest rank [r], which for [alpha >= 0] is the smallest of its
    dense terms), while each lexical occurrence of the key adds its own
    term; a key outside the dense hits starts from the term of its first
    lexical occurrence and adds those of the later ones. *)
Theorem dense_overwrites_lexical_adds (F : Type) (HF : PyFloat F)
  (HH : PyHash) (alpha : F) (pre : list (Document * F))
  (hit : Document * F) (post : list (Document * F))
  (bm25_hits : list Document) :
  ~ In (doc_key (fst hit)) (dense_keys post) ->
  PyDict.get (doc_key (fst hit))
    (combined_scores alpha (pre ++ hit :: post)%list bm25_hits)
  = Some (fst hit,
          add_lexical alpha (dense_term alpha (List.length pre))
            (lexical_ranks (doc_key (fst hit)) bm25_hits))
  /\ (forall key s,
         In s (lexical_ranks key bm25_hits)
         <-> exists doc, nth_error bm25_hits s = Some doc /\ doc_key doc = key)
  /\ (forall vector_hits key s more,
         ~ In key (dense_keys vector_hits) ->
         lexical_ranks key bm25_hits = s :: more ->
         exists doc,
           nth_error bm25_hits s = Some doc /\ doc_key doc = key /\
           PyDict.get key (combined_scores alpha vector_hits bm25_hits)
           = Some (doc, add_lexical alpha (lexical_term alpha s) more))
  /\ (forall (a : Q) (r : nat),
         (0 <= a)%Q -> (r <= List.length pre)%nat ->
         (dense_term a (List.length pre) <= dense_term a r)%Q).
Proof.
  intros Hpost; split; [|split; [|split]].
  - now apply combined_get_dense.
  - intros key s; apply in_lexical_ranks.
  - intros vector_hits key s more; apply combined_get_lexical.
  - intros a r; apply dense_term_Q_antitone.
Qed.



Lemma dense_overwrites_lexical_adds_witness :
  let hit := (Sample.solar, 0.25%float) in
  let pre := [(Sample.solar, 0.125%float)] in
  let docs := [Sample.solar; Sample.wind; Sample.minutes; Sample.solar] in
  ~ In (doc_key (HH := Sample.length_hash) (fst hit))
       (dense_keys (F := float) (HH := Sample.length_hash) [])
  /\ PyDict.get (doc_key (HH := Sample.length_hash) Sample.solar)
       (combined_scores (HH := Sample.length_hash) 0.5%float
          (pre ++ [hit])%list docs)
     = Some (Sample.solar, 0.875%float).
Proof.
  intros hit pre docs.
  assert (Hpost : ~ In (doc_key (HH := Sample.length_hash) (fst hit))
                       (dense_keys (F := float) (HH := Sample.length_hash) []))
    by (simpl; tauto).
  split; [exact Hpost|].
  exact (proj1 (dense_overwrites_lexical_adds float binary64
                  Sample.length_hash 0.5%float pre hit [] docs Hpost)).
Defined.


(** The converse fails: the key runs source, page and hash together with
    ["-"], so a negative page can be read as part of the source. *)
Example doc_key_collision (HH : PyHash) :
  let d1 := mkDocument "text" [("source", MStr "a"); ("page", MInt (-1))] in
  let d2 := mkDocument "text" [("source", MStr "a-"); ("page", MInt 1)] in
  doc_key d1 = doc_key d2 /\ ~ same_chunk d1 d2.
Proof.
  split; [reflexivity|].
  intros [Hs _]; discriminate Hs.
Qed.




(** C2: for every positive [k] the returned list has at most [k]
    entries and its combined scores never increase from one entry to a
    later one.  This holds for rational scores, and for binary64 scores
    when no merged score is a NaN (a NaN compares with nothing). *)
Theorem hybrid_output_bounded_sorted (HH : PyHash) (query : string) (k : Z)
  (bm25_hits : list Document) :
  (0 < k)%Z ->
  (forall (self : VectorStore) (alpha : Q)
          (vector_hits : list (Document * Q)),
      retrieves self query k vector_hits bm25_hits ->
      exists out,
        search_hybrid self query k alpha = Return out
        /\ (Z.of_nat (List.length out) <= k)%Z
        /\ StronglySorted (key_ge snd) out)
  /\ (forall (self : VectorStore) (alpha : float)
             (vector_hits : list (Document * float)),
         retrieves self query k vector_hits bm25_hits ->
         Forall (fun entry => not_nan (snd entry))
           (PyDict.values (combined_scores alpha vector_hits bm25_hits)) ->
         exists out,
           search_hybrid self query k alpha = Return out
           /\ (Z.of_nat (List.length out) <= k)%Z
           /\ StronglySorted (float_ge snd) out).
Proof.
  intros Hk; split.
  - intros self alpha vector_hits Hret.
    exists (ranked_top k (combined_scores alpha vector_hits bm25_hits)).
    split; [now apply search_hybrid_returns|]; unfold ranked_top; split.
    + apply slice_to_length; lia.
    + destruct (slice_to_firstn k
                  (sorted_reverse snd
                     (PyDict.values
                        (combined_scores alpha vector_hits bm25_hits))))
        as [n ->].
      apply StronglySorted_firstn, sorted_reverse_sorted.
  - intros self alpha vector_hits Hret Hgood.
    exists (ranked_top k (combined_scores alpha vector_hits bm25_hits)).
    split; [now apply search_hybrid_returns|]; unfold ranked_top; split.
    + apply slice_to_length; lia.
    + destruct (slice_to_firstn k
                  (sorted_reverse snd
                     (PyDict.values
                        (combined_scores alpha vector_hits bm25_hits))))
        as [n ->].
      now apply StronglySorted_firstn, sorted_reverse_sorted_binary64.
Qed.

Lemma hybrid_output_bounded_sorted_witness :
  let hits := [(Sample.solar, 1 # 8); (Sample.minutes, 1 # 4)]%Q in
  let fhits := [(Sample.solar, 0.125%float); (Sample.minutes, 0.25%float)] in
  let docs := [Sample.wind; Sample.solar; Sample.minutes] in
  (0 < 2)%Z
  /\ (exists out,
         search_hybrid (HH := Sample.length_hash) (Sample.store_of hits docs)
           "q" 2 (3 # 5)%Q = Return out
         /\ (Z.of_nat (List.length out) <= 2)%Z
         /\ StronglySorted (key_ge snd) out)
  /\ (exists out,
         search_hybrid (HH := Sample.length_hash) (Sample.store_of fhits docs)
           "q" 2 alpha_default = Return out
         /\ (Z.of_nat (List.length out) <= 2)%Z
         /\ StronglySorted (float_ge snd) out).
Proof.
  intros hits fhits docs.
  assert (Hk : (0 < 2)%Z) by lia.
  assert (Hret : retrieves (Sample.store_of hits docs) "q" 2 hits docs)
    by (eexists; repeat split; reflexivity).
  assert (Hfret : retrieves (Sample.store_of fhits docs) "q" 2 fhits docs)
    by (eexists; repeat split; reflexivity).
  assert (Hgood : Forall (fun entry => not_nan (snd entry))
                    (PyDict.values
                       (combined_scores (HH := Sample.length_hash)
                          alpha_default fhits docs)))
    by (repeat constructor).
  split; [exact Hk|]; split.
  - exact (proj1 (hybrid_output_bounded_sorted Sample.length_hash "q" 2%Z
                    docs Hk)
             (Sample.store_of hits docs) (3 # 5)%Q hits Hret).
  - exact (proj2 (hybrid_output_bounded_sorted Sample.length_hash "q" 2%Z
                    docs Hk)
             (Sample.store_of fhits docs) alpha_default fhits Hfret Hgood).
Defined.

Lemma ranked_top_empty {F : Type} {HF : PyFloat F} (k : Z) :
  ranked_top (F := F) k PyDict.empty = [].
Proof.
  unfold ranked_top, slice_to; simpl.
  destruct (k <? 0)%Z; apply firstn_nil.
Qed.

Lemma search_hybrid_empty {F : Type} {HF : PyFloat F} {HH : PyHash}
  (self : VectorStore) (query : string) (k : Z) (alpha : F) :
  retrieves self query k [] [] -> search_hybrid self query k alpha = Return [].
Proof.
  intros Hret; rewrite (search_hybrid_returns _ _ _ _ _ _ Hret).
  unfold combined_scores; simpl; now rewrite ranked_top_empty.
Qed.

(** C7: on a store that was never initialised [search_hybrid] raises
    [RuntimeError("Vector store not initialized")], and [query] raises
    its own [RuntimeError] when there is no saved index either; on an
    initialised store whose two retrievals come back empty it returns
    the empty list, and [query] then returns a card.  The two outcomes
    are different values of [result]. *)
Theorem hybrid_not_ready_vs_empty (F : Type) (HF : PyFloat F) (HH : PyHash)
  (self : VectorStore) (query_text : string) (k : Z) (alpha : F) :
  (_store self = None ->
   search_hybrid self query_text k alpha
   = Raise (RuntimeError "Vector store not initialized"))
  /\ (retrieves self query_text k [] [] ->
      search_hybrid self query_text k alpha = Return [])
  /\ (forall bm25_from_documents chain,
         _store self = None ->
         query None bm25_from_documents chain self query_text
         = Raise (RuntimeError
                    "No documents ingested; please add files before querying."))
  /\ (forall persisted bm25_from_documents chain,
         retrieves self query_text 5 [] [] ->
         query persisted bm25_from_documents chain self query_text
         = Return (mkCard (of_int 0) []))
  /\ (forall e : exn, Raise e <> Return (@nil (Document * F))).
Proof.
  split; [|split; [|split; [|split]]].
  - intros Hnone; unfold search_hybrid; now rewrite Hnone.
  - apply search_hybrid_empty.
  - intros bm25_from_documents chain Hnone.
    unfold query, load_or_create_nil; rewrite Hnone; reflexivity.
  - intros persisted bm25_from_documents chain Hret.
    pose proof Hret as [store [Hstore _]].
    unfold query; rewrite Hstore; cbv beta iota zeta.
    rewrite Hstore, (search_hybrid_empty _ _ _ _ Hret); reflexivity.
  - discriminate.
Qed.

Lemma hybrid_not_ready_vs_empty_witness :
  search_hybrid (F := float) (HH := Sample.length_hash)
    Sample.empty_store "q" 5 alpha_default
  = Raise (RuntimeError "Vector store not initialized")
  /\ search_hybrid (F := float) (HH := Sample.length_hash)
       (Sample.store_of [] []) "q" 5 alpha_default
     = Return [].
Proof.
  split.
  - exact (proj1 (hybrid_not_ready_vs_empty float binary64
                    Sample.length_hash Sample.empty_store "q" 5%Z
                    alpha_default) eq_refl).
  - assert (Hret : retrieves (F := float) (Sample.store_of [] []) "q" 5 [] [])
      by (eexists; repeat split; reflexivity).
    exact (proj1 (proj2 (hybrid_not_ready_vs_empty float binary64
                           Sample.length_hash (Sample.store_of [] []) "q" 5%Z
                           alpha_default)) Hret).
Defined.




(** ** Range of the combined scores: the claim *)




(** ** Claim verification *)

Section VerifyFacts.
Variable chain : LLMChain.

Lemma verify_loop_raise (claims : list (Document * string)) (e : exn) :
  fold_left (verify_step chain) claims (Raise e) = Raise e.
Proof. induction claims as [|claim claims IH]; simpl; auto. Qed.


Lemma verify_loop_abort (pre : list (Document * string)) :
  forall (claim : Document * string) (post : list (Document * string))
         (e : exn) (results : list Verified),
    Forall (fun c => exists verdict,
                run chain (page_content (fst c)) = Return verdict) pre ->
    run chain (page_content (fst claim)) = Raise e ->
    fold_left (verify_step chain) (pre ++ claim :: post)%list (Return results) = Raise e.
Proof.
  induction pre as [|[doc tag] pre IH]; intros claim post e results Hpre Hrun.
  - destruct claim as [doc tag]; simpl in *; rewrite Hrun; simpl.
    apply verify_loop_raise.
  - inversion Hpre as [|? ? [verdict Hv] Hpre']; subst; simpl in *.
    rewrite Hv; simpl; now apply IH.
Qed.

End VerifyFacts.




(** * More properties *)

(** ** Which keys [combined] holds, and in which order *)

Lemma keys_set {V : Type} (k : string) (v : V) (d : PyDict.t V) :
  PyDict.keys (PyDict.set k v d) = note_key (PyDict.keys d) k.
Proof.
  unfold note_key; induction d as [|[k0 v0] d IH]; simpl.
  - reflexivity.
  - destruct (String.eqb k k0) eqn:E; simpl.
    + apply String.eqb_eq in E; subst k0; reflexivity.
    + rewrite IH.
      destruct (existsb (String.eqb k) (PyDict.keys d)); reflexivity.
Qed.

Lemma filter_filter_implied {A : Type} (p q : A -> bool) (l : list A) :
  (forall y, p y = true -> q y = true) ->
  filter p (filter q l) = filter p l.
Proof.
  intros Himp; induction l as [|y l IH]; simpl; [reflexivity|].
  destruct (q y) eqn:Eq; simpl.
  - now rewrite IH.
  - destruct (p y) eqn:Ep; [|exact IH].
    apply Himp in Ep; congruence.
Qed.

Lemma filter_swap {A : Type} (p q : A -> bool) (l : list A) :
  filter p (filter q l) = filter q (filter p l).
Proof.
  induction l as [|y l IH]; simpl; [reflexivity|].
  destruct (q y) eqn:Eq, (p y) eqn:Ep; simpl;
    rewrite ?Eq, ?Ep, ?IH; reflexivity.
Qed.

Lemma first_occurrences_filter (p : string -> bool) (l : list string) :
  filter p (first_occurrences l) = first_occurrences (filter p l).
Proof.
  induction l as [|x l IH]; simpl; [reflexivity|].
  destruct (p x) eqn:Ep; simpl.
  - now rewrite filter_swap, IH.
  - rewrite <- IH; apply filter_filter_implied.
    intros y Hy; apply negb_true_iff, String.eqb_neq; congruence.
Qed.

Lemma in_first_occurrences (l : list string) (k : string) :
  In k (first_occurrences l) <-> In k l.
Proof.
  induction l as [|x l IH]; simpl; [tauto|].
  rewrite filter_In, IH, negb_true_iff, String.eqb_neq.
  destruct (string_dec x k); intuition.
Qed.

Lemma NoDup_filter {A : Type} (p : A -> bool) (l : list A) :
  NoDup l -> NoDup (filter p l).
Proof.
  induction 1 as [|x l Hx Hnd IH]; simpl; [constructor|].
  destruct (p x); [constructor|]; auto.
  rewrite filter_In; tauto.
Qed.

Lemma NoDup_first_occurrences (l : list string) :
  NoDup (first_occurrences l).
Proof.
  induction l as [|x l IH]; simpl; constructor.
  - rewrite filter_In, String.eqb_refl; simpl; intros [_ H]; discriminate.
  - now apply NoDup_filter.
Qed.

Lemma filter_and {A : Type} (p q : A -> bool) (l : list A) :
  filter p (filter q l) = filter (fun y => p y && q y) l.
Proof.
  induction l as [|y l IH]; simpl; [reflexivity|].
  destruct (q y) eqn:Eq, (p y) eqn:Ep; simpl; rewrite ?Ep, ?IH; reflexivity.
Qed.

Lemma fold_note_key (l : list string) :
  forall seen,
    fold_left note_key l seen
    = (seen ++ first_occurrences
                 (filter (fun k => negb (existsb (String.eqb k) seen)) l))%list.
Proof.
  induction l as [|k l IH]; intros seen; simpl.
  - now rewrite app_nil_r.
  - rewrite IH; unfold note_key.
    destruct (existsb (String.eqb k) seen) eqn:E; simpl; [reflexivity|].
    rewrite <- app_assoc; simpl; do 2 f_equal.
    rewrite first_occurrences_filter; f_equal.
    rewrite filter_and; apply filter_ext; intros y.
    rewrite existsb_app; simpl; rewrite (String.eqb_sym y k).
    destruct (existsb (String.eqb y) seen), (String.eqb k y); reflexivity.
Qed.

Section MergedKeys.
Context {F : Type} {HF : PyFloat F} {HH : PyHash}.
Implicit Types (alpha : F) (combined : PyDict.t (Document * F)).

Lemma keys_dense_step alpha combined item :
  PyDict.keys (dense_step alpha combined item)
  = note_key (PyDict.keys combined) (doc_key (fst (snd item))).
Proof. destruct item as [rank [doc score]]; apply keys_set. Qed.

Lemma keys_bm25_step alpha combined item :
  PyDict.keys (bm25_step alpha combined item)
  = note_key (PyDict.keys combined) (doc_key (snd item)).
Proof.
  destruct item as [rank doc]; unfold bm25_step; simpl.
  destruct (PyDict.get (doc_key doc) combined) as [[doc0 score0]|];
    apply keys_set.
Qed.

Lemma map_snd_enumerate_from {A B : Type} (f : A -> B) (l : list A) :
  forall start,
    map (fun item => f (snd item)) (enumerate_from start l) = map f l.
Proof.
  induction l as [|x l IH]; intros start; simpl; [|rewrite IH]; reflexivity.
Qed.

Lemma keys_fold {A : Type}
  (step : PyDict.t (Document * F) -> A -> PyDict.t (Document * F))
  (key_of : A -> string) (items : list A) :
  (forall combined item,
      PyDict.keys (step combined item)
      = note_key (PyDict.keys combined) (key_of item)) ->
  forall combined,
    PyDict.keys (fold_left step items combined)
    = fold_left note_key (map key_of items) (PyDict.keys combined).
Proof.
  intros Hstep; induction items as [|item items IH]; intros combined; simpl.
  - reflexivity.
  - now rewrite IH, Hstep.
Qed.

Lemma keys_combined_fold alpha vector_hits bm25_hits :
  PyDict.keys (combined_scores alpha vector_hits bm25_hits)
  = fold_left note_key (dense_keys vector_hits ++ lexical_keys bm25_hits) [].
Proof.
  unfold combined_scores, enumerate.
  rewrite (keys_fold _ (fun item => doc_key (snd item)) _
             (keys_bm25_step alpha)).
  rewrite (keys_fold _ (fun item => doc_key (fst (snd item))) _
             (keys_dense_step alpha)).
  rewrite fold_left_app; unfold dense_keys, lexical_keys.
  rewrite (map_snd_enumerate_from doc_key).
  rewrite (map_snd_enumerate_from (fun hit => doc_key (fst hit))).
  reflexivity.
Qed.

End MergedKeys.

(** X1: the merged dictionary holds exactly the distinct keys of the
    dense hits followed by those of the lexical hits, each at the place
    where it was first met: no hit is lost before the cut to [k], and
    no key appears that no hit has. *)
Theorem combined_keys_first_seen (F : Type) (HF : PyFloat F) (HH : PyHash)
  (alpha : F) (vector_hits : list (Document * F))
  (bm25_hits : list Document) :
  PyDict.keys (combined_scores alpha vector_hits bm25_hits)
  = first_occurrences (dense_keys vector_hits ++ lexical_keys bm25_hits)
  /\ (forall key,
         In key (PyDict.keys (combined_scores alpha vector_hits bm25_hits))
         <-> In key (dense_keys vector_hits) \/ In key (lexical_keys bm25_hits))
  /\ (List.length (PyDict.values (combined_scores alpha vector_hits bm25_hits))
      <= List.length vector_hits + List.length bm25_hits)%nat.
Proof.
  assert (Hkeys : PyDict.keys (combined_scores alpha vector_hits bm25_hits)
                  = first_occurrences
                      (dense_keys vector_hits ++ lexical_keys bm25_hits)).
  { rewrite keys_combined_fold, fold_note_key; simpl.
    f_equal; clear; induction (_ ++ _)%list as [|x l IH]; simpl; congruence. }
  split; [exact Hkeys|split].
  - intros key; now rewrite Hkeys, in_first_occurrences, in_app_iff.
  - unfold PyDict.values; rewrite length_map.
    rewrite <- (length_map fst); fold (PyDict.keys
      (combined_scores alpha vector_hits bm25_hits)).
    rewrite Hkeys.
    assert (Hle : forall l, (List.length (first_occurrences l)
                             <= List.length l)%nat).
    { induction l as [|x l IH]; simpl; [lia|].
      pose proof (filter_length_le
                    (fun y => negb (String.eqb x y)) (first_occurrences l)).
      lia. }
    rewrite Hle, length_app; unfold dense_keys, lexical_keys.
    now rewrite !length_map.
Qed.

(** ** Where the returned documents come from *)

Section ReturnedDocs.
Context {F : Type} {HF : PyFloat F} {HH : PyHash}.

Lemma last_dense_found (key : string) (vector_hits : list (Document * F)) :
  forall start r doc,
    last_dense_from start key vector_hits = Some (r, doc) ->
    In doc (map fst vector_hits) /\ doc_key doc = key.
Proof.
  induction vector_hits as [|hit rest IH]; intros start r doc; simpl;
    [discriminate|].
  destruct (last_dense_from (S start) key rest) as [[r' doc']|] eqn:E.
  - intros [= -> ->]; destruct (IH _ _ _ E); auto.
  - destruct (String.eqb (doc_key (fst hit)) key) eqn:Ek; [|discriminate].
    intros [= _ <-]; apply String.eqb_eq in Ek; auto.
Qed.

Lemma last_dense_none (key : string) (vector_hits : list (Document * F)) :
  forall start,
    last_dense_from start key vector_hits = None ->
    ~ In key (dense_keys vector_hits).
Proof.
  induction vector_hits as [|hit rest IH]; intros start; simpl; [tauto|].
  destruct (last_dense_from (S start) key rest) as [found|] eqn:E;
    [discriminate|].
  destruct (String.eqb (doc_key (fst hit)) key) eqn:Ek; [discriminate|].
  apply String.eqb_neq in Ek; intros _ [Hk | Hin]; [contradiction|].
  now apply (IH _ E).
Qed.

Lemma combined_entry_origin (alpha : F) vector_hits bm25_hits key doc score :
  PyDict.get key (combined_scores alpha vector_hits bm25_hits)
  = Some (doc, score) ->
  (In key (dense_keys vector_hits) /\ In doc (map fst vector_hits))
  \/ (~ In key (dense_keys vector_hits) /\ In doc bm25_hits).
Proof.
  rewrite combined_scores_get; unfold entry_after_dense, entry_after_lexical.
  destruct (last_dense_from 0 key vector_hits) as [[r found]|] eqn:E.
  - intros [= <- _]; left.
    destruct (last_dense_found _ _ _ _ _ E) as [Hin Hkey]; split; auto.
    unfold dense_keys; rewrite <- Hkey.
    apply in_map_iff in Hin; destruct Hin as [hit [<- Hin]].
    now apply (in_map (fun h => doc_key (fst h))).
  - apply last_dense_none in E.
    destruct (lexical_hits_of_from 0 key bm25_hits) as [|[s found] more] eqn:El;
      [discriminate|].
    intros [= <- _]; right; split; [assumption|].
    assert (Hin : In (s, found) (lexical_hits_of_from 0 key bm25_hits))
      by (rewrite El; now left).
    apply in_lexical_hits in Hin; destruct Hin as [_ [Hnth _]].
    now apply nth_error_In in Hnth.
Qed.

End ReturnedDocs.

(** X2: [search_hybrid] returns only documents it was given: the
    document of a returned entry is the document of a dense hit when its
    key occurs among the dense hits, and otherwise a document of the
    lexical hits. *)
Theorem hybrid_returns_given_documents (F : Type) (HF : PyFloat F)
  (HH : PyHash) (self : VectorStore) (query : string) (k : Z) (alpha : F)
  (vector_hits : list (Document * F)) (bm25_hits : list Document) :
  retrieves self query k vector_hits bm25_hits ->
  exists out,
    search_hybrid self query k alpha = Return out
    /\ forall doc score,
         In (doc, score) out ->
         (In (doc_key doc) (dense_keys vector_hits)
          /\ In doc (map fst vector_hits))
         \/ (~ In (doc_key doc) (dense_keys vector_hits)
             /\ In doc bm25_hits).
Proof.
  intros Hret.
  exists (ranked_top k (combined_scores alpha vector_hits bm25_hits)).
  split; [now apply search_hybrid_returns|].
  intros doc score Hin; apply ranked_top_get in Hin.
  exact (combined_entry_origin _ _ _ _ _ _ Hin).
Qed.

Lemma hybrid_returns_given_documents_witness :
  let hits := [(Sample.solar, 0.125%float); (Sample.minutes, 0.25%float)] in
  let docs := [Sample.solar; Sample.wind] in
  exists out,
    search_hybrid (HH := Sample.length_hash) (Sample.store_of hits docs)
      "q" 5 alpha_default = Return out
    /\ forall doc score,
         In (doc, score) out ->
         (In (doc_key (HH := Sample.length_hash) doc)
             (dense_keys (HH := Sample.length_hash) hits)
          /\ In doc (map fst hits))
         \/ (~ In (doc_key (HH := Sample.length_hash) doc)
                  (dense_keys (HH := Sample.length_hash) hits)
             /\ In doc docs).
Proof.
  intros hits docs.
  assert (Hret : retrieves (Sample.store_of hits docs) "q" 5 hits docs)
    by (eexists; repeat split; reflexivity).
  exact (hybrid_returns_given_documents float binary64 Sample.length_hash
           (Sample.store_of hits docs) "q" 5%Z alpha_default hits docs Hret).
Defined.

(** ** Ties and the order of the result *)





(** ** Hybrid search without lexical hits *)




Section DenseOnly.
Context {HH : PyHash}.




End DenseOnly.




(** ** The GreenImplement ratio as a fraction *)







(** ** [RAGEngine.query]: retrieval, detection, verification, ratio *)


(** What [query] does once the store is initialised. *)
Lemma query_initialised {F : Type} {HF : PyFloat F} {HH : PyHash}
  (persisted : option FAISS)
  (bm25_from_documents : list Document -> BM25Retriever)
  (chain : LLMChain) (self : VectorStore) (question : string)
  (store : FAISS) :
  _store self = Some store ->
  query persisted bm25_from_documents chain self question
  = (results <- search_hybrid self question 5 alpha_default ;;
     verified <- verify_claims chain (detect_claims (map fst results)) ;;
     Return (mkCard (green_implement_ratio verified) (map fst results))).
Proof.
  intros Hstore; unfold query; rewrite Hstore; cbv beta iota zeta.
  now rewrite Hstore.
Qed.






(** X8: [query] has no handler around the verification either: when
    the chain raises on a flagged chunk, the calls for the flagged chunks
    before it having returned, [query] raises that exception and gives
    no card, although the retrieval went through. *)
Theorem query_fails_with_the_chain (F : Type) (HF : PyFloat F) (HH : PyHash)
  (persisted : option FAISS)
  (bm25_from_documents : list Document -> BM25Retriever)
  (chain : LLMChain) (self : VectorStore) (question : string)
  (vector_hits : list (Document * F)) (bm25_hits : list Document)
  (pre : list (Document * string)) (claim : Document * string)
  (post : list (Document * string)) (e : exn) :
  retrieves self question 5 vector_hits bm25_hits ->
  detect_claims
    (map fst (ranked_top 5
                (combined_scores alpha_default vector_hits bm25_hits)))
  = (pre ++ claim :: post)%list ->
  Forall (fun c => exists verdict,
              run chain (page_content (fst c)) = Return verdict) pre ->
  run chain (page_content (fst claim)) = Raise e ->
  query persisted bm25_from_documents chain self question = Raise e.
Proof.
  intros Hret Hdetect Hpre Hrun.
  pose proof Hret as [store [Hstore _]].
  rewrite (query_initialised _ _ _ _ _ _ Hstore).
  rewrite (search_hybrid_returns _ _ _ _ _ _ Hret); simpl.
  rewrite Hdetect.
  unfold verify_claims.
  now rewrite (verify_loop_abort chain pre claim post e [] Hpre Hrun).
Qed.

Lemma query_fails_with_the_chain_witness :
  let hits := [(Sample.solar, 0.125%float); (Sample.minutes, 0.25%float)] in
  let docs := [Sample.wind; Sample.solar] in
  query (HH := Sample.length_hash) None Sample.bm25_of
    (Sample.chain_failing_on "WIND farm output") (Sample.store_of hits docs)
    "q"
  = Raise Sample.timeout.
Proof.
  intros hits docs.
  assert (Hret : retrieves (Sample.store_of hits docs) "q" 5 hits docs)
    by (eexists; repeat split; reflexivity).
  apply (query_fails_with_the_chain float binary64 Sample.length_hash
           None Sample.bm25_of (Sample.chain_failing_on "WIND farm output")
           (Sample.store_of hits docs) "q" hits docs
           [(Sample.solar, "claim_detected")] (Sample.wind, "claim_detected")
           [] Sample.timeout Hret).
  - reflexivity.
  - repeat constructor; now exists "implemented".
  - reflexivity.
Defined.

(** ** The store: [add_documents], [load_or_create], [ingest] *)

Ltac run_store :=
  unfold ingest, add_documents, load_or_create, rebuild_bm25, save,
    set_store, set_bm25, extend_documents, bindS, gets, modify, lift, ret;
  cbn [vector_store index_file _store _bm25 _documents fst snd].

Section StoreFacts.
Context {F : Type}.
Implicit Types (backend : @Backend F) (w : @World F).

Lemma add_documents_returns backend documents w w' :
  add_documents backend documents w = (Return tt, w') ->
  exists index bm25,
    index_call backend documents w = Return index
    /\ rebuilt backend (_bm25 (vector_store w))
         (_documents (vector_store w) ++ documents)%list bm25
    /\ w' = mkWorld
              (mkVectorStore (Some index) bm25
                 (_documents (vector_store w) ++ documents)%list)
              (Some index).
Proof.
  destruct w as [[store bm docs] file]; unfold index_call, rebuilt.
  run_store.
  destruct store as [index|].
  - destruct (FAISS_add_documents backend index documents) as [index'|e];
      [|discriminate]; cbn.
    destruct (docs ++ documents)%list as [|d rest] eqn:E; cbn.
    + intros [= <-]; exists index', bm; auto.
    + destruct (BM25_from_documents backend (d :: rest)) as [built|e];
        [|discriminate]; cbn.
      intros [= <-]; exists index', (Some built); repeat split.
      now exists built.
  - destruct (FAISS_from_documents backend documents) as [index'|e];
      [|discriminate]; cbn.
    destruct (docs ++ documents)%list as [|d rest] eqn:E; cbn.
    + intros [= <-]; exists index', bm; auto.
    + destruct (BM25_from_documents backend (d :: rest)) as [built|e];
        [|discriminate]; cbn.
      intros [= <-]; exists index', (Some built); repeat split.
      now exists built.
Qed.

Lemma add_documents_consistent backend documents w w' :
  consistent backend w ->
  add_documents backend documents w = (Return tt, w') ->
  consistent backend w'.
Proof.
  intros [Hnone [Hfile Hbm]] Hrun.
  destruct (add_documents_returns _ _ _ _ Hrun)
    as [index [bm25 [_ [Hre ->]]]].
  unfold consistent; cbn; split; [discriminate|split].
  - intros index0 [= <-]; reflexivity.
  - unfold rebuilt in Hre.
    destruct (_documents (vector_store w) ++ documents)%list as [|d rest] eqn:E.
    + apply app_eq_nil in E; destruct E as [E _].
      rewrite E in Hbm; congruence.
    + exact Hre.
Qed.

Lemma load_or_create_returns backend documents w r w' :
  consistent backend w ->
  load_or_create backend documents w = (Return r, w') ->
  consistent backend w'
  /\ r = _store (vector_store w')
  /\ _documents (vector_store w')
     = (_documents (vector_store w) ++ documents)%list
  /\ (_store (vector_store w') = None ->
      index_file w = None /\ documents = []).
Proof.
  destruct w as [[store bm docs] file].
  intros [Hnone [Hfile Hbm]]; cbn in Hnone, Hfile, Hbm.
  destruct file as [index|]; destruct documents as [|d documents].
  - run_store.
    assert (Hskip : match docs, bm with
                    | _ :: _, None => False
                    | _, _ => True
                    end).
    { destruct docs; [exact I|]. destruct Hbm as [b [_ ->]]; exact I. }
    destruct docs as [|d0 docs]; [|destruct bm; [|contradiction]];
      cbn; intros [= <- <-]; rewrite ?app_nil_r;
      (split; [|split; [reflexivity|split; [reflexivity|discriminate]]]);
      unfold consistent; cbn; (split; [discriminate|split]);
      try (intros ? [= <-]; reflexivity); try assumption.
  - unfold load_or_create, bindS, gets, set_store, modify;
      cbn -[add_documents].
    match goal with
    | |- context [add_documents backend (d :: documents) ?w0] =>
        destruct (add_documents backend (d :: documents) w0)
          as [[[]|e] w1] eqn:Hadd
    end; [|discriminate].
    destruct (add_documents_returns _ _ _ _ Hadd)
      as [index' [bm25 [_ [Hre ->]]]]; cbn in Hre |- *.
    unfold rebuilt in Hre.
    destruct (docs ++ d :: documents)%list as [|d1 rest] eqn:E;
      [destruct docs; discriminate|].
    destruct Hre as [built [Hbuilt ->]]; cbn.
    intros [= <- <-]; cbn.
    split; [|split; [reflexivity|split; [reflexivity|discriminate]]].
    unfold consistent; cbn; split; [discriminate|split].
    + intros ? [= <-]; reflexivity.
    + now exists built.
  - run_store.
    assert (Hskip : match docs, bm with
                    | _ :: _, None => False
                    | _, _ => True
                    end).
    { destruct docs; [exact I|]. destruct Hbm as [b [_ ->]]; exact I. }
    destruct docs as [|d0 docs]; [|destruct bm; [|contradiction]];
      cbn; intros [= <- <-]; rewrite ?app_nil_r;
      (split; [|split; [reflexivity|split; [reflexivity|auto]]]);
      unfold consistent; cbn; (split; [assumption|split]); assumption.
  - assert (Hs : store = None)
      by (destruct store as [ix|]; [discriminate (Hfile ix eq_refl)|reflexivity]).
    subst store; destruct (Hnone eq_refl) as [-> ->].
    run_store.
    destruct (FAISS_from_documents backend (d :: documents)) as [index|e];
      [|discriminate]; cbn.
    destruct (BM25_from_documents backend (d :: documents)) as [built|e] eqn:Hb;
      [|discriminate]; cbn.
    intros [= <- <-]; cbn.
    split; [|split; [reflexivity|split; [reflexivity|discriminate]]].
    unfold consistent; cbn; split; [discriminate|split].
    + intros ? [= <-]; reflexivity.
    + now exists built.
Qed.

End StoreFacts.

(** ** [process_file] and the loop of [ingest] *)

Section ProcessFacts.
Variable loaders : Loaders.

Lemma process_loop_raise (paths : list Path) (e : exn) :
  fold_left
    (fun acc path =>
       docs <- acc ;;
       more <- process_file loaders path ;;
       Return (docs ++ more)%list)
    paths (Raise e)
  = Raise e.
Proof. induction paths as [|p paths IH]; simpl; auto. Qed.

Lemma process_loop_abort (pre : list Path) :
  forall (p : Path) (post : list Path) (e : exn) (docs : list Document),
    Forall (fun q => exists found, process_file loaders q = Return found)
      pre ->
    process_file loaders p = Raise e ->
    fold_left
      (fun acc path =>
         docs <- acc ;;
         more <- process_file loaders path ;;
         Return (docs ++ more)%list)
      (pre ++ p :: post)%list (Return docs)
    = Raise e.
Proof.
  induction pre as [|q pre IH]; intros p post e docs Hpre Hp.
  - simpl; rewrite Hp; simpl; apply process_loop_raise.
  - inversion Hpre as [|? ? [found Hq] Hpre']; subst; simpl.
    rewrite Hq; simpl; now apply IH.
Qed.

Lemma process_loop_return (paths : list Path) :
  forall (chunks : list (list Document)) (docs : list Document),
    Forall2 (fun p found => process_file loaders p = Return found)
      paths chunks ->
    fold_left
      (fun acc path =>
         docs <- acc ;;
         more <- process_file loaders path ;;
         Return (docs ++ more)%list)
      paths (Return docs)
    = Return (docs ++ List.concat chunks)%list.
Proof.
  induction paths as [|p paths IH]; intros chunks docs Hall;
    inversion Hall as [|? found ? chunks' Hp Hall']; subst; simpl.
  - now rewrite app_nil_r.
  - rewrite Hp; simpl; rewrite (IH _ _ Hall'), <- app_assoc; reflexivity.
Qed.

End ProcessFacts.



(** X10: when a file of the selection cannot be processed, the files
    before it having been processed, [ingest] raises the exception of
    that file and leaves the store and the index file as they were:
    nothing of the selection is added. *)
Theorem ingest_fails_untouched (F : Type) (loaders : Loaders)
  (backend : @Backend F) (pre : list Path) (p : Path) (post : list Path)
  (e : exn) (w : @World F) :
  Forall (fun q => exists found, process_file loaders q = Return found) pre ->
  process_file loaders p = Raise e ->
  ingest loaders backend (pre ++ p :: post)%list w = (Raise e, w).
Proof.
  intros Hpre Hp; unfold ingest, bindS, lift, process_all.
  now rewrite (process_loop_abort loaders pre p post e [] Hpre Hp).
Qed.

Lemma ingest_fails_untouched_witness :
  ingest SampleStore.loaders SampleStore.backend
    [SampleStore.report; SampleStore.sheet] SampleStore.started
  = (Raise (ValueError "Unsupported file type: .xlsx"), SampleStore.started).
Proof.
  apply (ingest_fails_untouched Q SampleStore.loaders SampleStore.backend
           [SampleStore.report] SampleStore.sheet []
           (ValueError "Unsupported file type: .xlsx") SampleStore.started).
  - repeat constructor; now exists [Sample.solar].
  - reflexivity.
Defined.

(** ** What [ingest] leaves behind *)

Section IngestFacts.
Context {F : Type}.
Implicit Types (backend : @Backend F) (w : @World F).

Lemma fresh_consistent backend (file : option (@FAISS F)) :
  consistent backend (mkWorld fresh_store file).
Proof. unfold consistent; cbn; repeat split; discriminate. Qed.

Lemma ingest_returns loaders backend paths w w' :
  consistent backend w ->
  ingest loaders backend paths w = (Return tt, w') ->
  exists docs,
    process_all loaders paths = Return docs
    /\ consistent backend w'
    /\ _documents (vector_store w')
       = (_documents (vector_store w) ++ docs)%list
    /\ (_store (vector_store w') = None ->
        _store (vector_store w) = None /\ index_file w = None /\ docs = []).
Proof.
  intros Hc; unfold ingest, bindS, lift, gets.
  destruct (process_all loaders paths) as [docs|e]; [|discriminate].
  destruct (_store (vector_store w)) as [index|] eqn:Hstore.
  - intros Hadd; exists docs; split; [reflexivity|].
    split; [now apply (add_documents_consistent _ _ _ _ Hc Hadd)|].
    destruct (add_documents_returns _ _ _ _ Hadd)
      as [index' [bm25 [_ [_ ->]]]]; cbn.
    split; [reflexivity | discriminate].
  - destruct (load_or_create backend docs w) as [[r|e] w1] eqn:Hload;
      [|discriminate].
    cbn; intros [= <-]; exists docs; split; [reflexivity|].
    destruct (load_or_create_returns _ _ _ _ _ Hc Hload)
      as [Hc' [_ [Hdocs Hnone]]].
    split; [assumption | split; [assumption|]].
    intros Hs; destruct (Hnone Hs); auto.
Qed.

End IngestFacts.

(** X11: the methods keep the store in step with itself.  From a state
    where (a) a store object without index has no documents and no BM25
    retriever, (b) an index in memory is the one in the index file and
    (c) the BM25 retriever exists exactly when documents were added and
    is the one built from all of them, every [add_documents],
    [load_or_create] and [ingest] that returns leads to such a state
    again; a process that has just started is in such a state. *)
Theorem store_stays_consistent (F : Type) (loaders : Loaders)
  (backend : @Backend F) (w : @World F) :
  consistent backend w ->
  (forall documents w',
      add_documents backend documents w = (Return tt, w') ->
      consistent backend w')
  /\ (forall documents r w',
         load_or_create backend documents w = (Return r, w') ->
         consistent backend w' /\ r = _store (vector_store w'))
  /\ (forall paths w',
         ingest loaders backend paths w = (Return tt, w') ->
         consistent backend w')
  /\ (forall file, consistent backend (mkWorld fresh_store file)).
Proof.
  intros Hc; split; [|split; [|split]].
  - intros documents w'; now apply add_documents_consistent.
  - intros documents r w' Hload.
    destruct (load_or_create_returns _ _ _ _ _ Hc Hload) as [H1 [H2 _]]; auto.
  - intros paths w' Hin.
    destruct (ingest_returns _ _ _ _ _ Hc Hin) as [docs [_ [H1 _]]]; auto.
  - apply fresh_consistent.
Qed.

Lemma store_stays_consistent_witness :
  ingest SampleStore.loaders SampleStore.backend [SampleStore.report]
    SampleStore.started
  = (Return tt, SampleStore.ingested)
  /\ consistent SampleStore.backend SampleStore.ingested.
Proof.
  assert (Hrun : ingest SampleStore.loaders SampleStore.backend
                   [SampleStore.report] SampleStore.started
                 = (Return tt, SampleStore.ingested)) by reflexivity.
  split; [exact Hrun|].
  exact (proj1 (proj2 (proj2
           (store_stays_consistent Q SampleStore.loaders SampleStore.backend
              SampleStore.started
              (fresh_consistent SampleStore.backend None))))
           [SampleStore.report] SampleStore.ingested Hrun).
Defined.

(** X12: an [ingest] that returns has appended the chunks of the
    selected files, in order, to the documents of the store; and unless
    the selection gave no chunk at all on a store without index and
    without index file, the store is initialised afterwards. *)
Theorem ingest_appends_documents (F : Type) (loaders : Loaders)
  (backend : @Backend F) (paths : list Path) (w w' : @World F) :
  consistent backend w ->
  ingest loaders backend paths w = (Return tt, w') ->
  exists docs,
    process_all loaders paths = Return docs
    /\ _documents (vector_store w')
       = (_documents (vector_store w) ++ docs)%list
    /\ (_store (vector_store w') = None ->
        _store (vector_store w) = None /\ index_file w = None /\ docs = []).
Proof.
  intros Hc Hin.
  destruct (ingest_returns _ _ _ _ _ Hc Hin) as [docs [H1 [_ [H2 H3]]]].
  exists docs; auto.
Qed.

Lemma ingest_appends_documents_witness :
  exists docs,
    process_all SampleStore.loaders [SampleStore.report] = Return docs
    /\ _documents (vector_store SampleStore.ingested)
       = (_documents (vector_store SampleStore.started) ++ docs)%list
    /\ (_store (vector_store SampleStore.ingested) = None ->
        _store (vector_store SampleStore.started) = None
        /\ index_file SampleStore.started = None /\ docs = []).
Proof.
  apply (ingest_appends_documents Q SampleStore.loaders SampleStore.backend
           [SampleStore.report] SampleStore.started SampleStore.ingested).
  - apply fresh_consistent.
  - reflexivity.
Defined.

(** ** A new process over a saved index *)

(** [load_or_create([])] as [query] uses it: the state it leaves is the
    one of [load_or_create_nil]. *)
Lemma load_or_create_nil_agrees {F : Type}
  (build : list Document -> BM25Retriever) (ff : list Document -> result FAISS)
  (fa : FAISS -> list Document -> result FAISS)
  (self : @VectorStore F) (persisted : option (@FAISS F)) :
  load_or_create (mkBackend ff fa (fun docs => Return (build docs))) []
    (mkWorld self persisted)
  = (Return (_store (load_or_create_nil persisted build self)),
     mkWorld (load_or_create_nil persisted build self) persisted).
Proof.
  destruct self as [store bm docs]; unfold load_or_create_nil.
  run_store.
  destruct persisted as [index|]; cbn;
    destruct docs as [|d docs]; cbn; try reflexivity;
    destruct bm; reflexivity.
Qed.



(** X14: on a store without index, with no index file, a selection of
    files that gives no chunk leaves everything as it was, without an
    error; a [query] after it raises [RuntimeError("No documents
    ingested; please add files before querying.")]. *)
Theorem ingest_nothing_then_query (F : Type) (HF : PyFloat F) (HH : PyHash)
  (loaders : Loaders) (backend : @Backend F) (paths : list Path)
  (w : @World F) (build : list Document -> BM25Retriever)
  (chain : LLMChain) (question : string) :
  consistent backend w ->
  _store (vector_store w) = None ->
  index_file w = None ->
  process_all loaders paths = Return [] ->
  ingest loaders backend paths w = (Return tt, w)
  /\ query (index_file w) build chain (vector_store w) question
     = Raise (RuntimeError
                "No documents ingested; please add files before querying.").
Proof.
  destruct w as [[store bm docs] file]; unfold consistent; cbn.
  intros [Hnone _] -> -> Hdocs; destruct (Hnone eq_refl) as [-> ->].
  split.
  - unfold ingest, bindS, lift; rewrite Hdocs; reflexivity.
  - reflexivity.
Qed.

Lemma ingest_nothing_then_query_witness :
  ingest SampleStore.loaders SampleStore.backend [] SampleStore.started
  = (Return tt, SampleStore.started)
  /\ query (HH := Sample.length_hash) (index_file SampleStore.started)
       Sample.bm25_of (Sample.chain_saying "implemented")
       (vector_store SampleStore.started) "q"
     = Raise (RuntimeError
                "No documents ingested; please add files before querying.").
Proof.
  apply (ingest_nothing_then_query Q Q_float Sample.length_hash
           SampleStore.loaders SampleStore.backend [] SampleStore.started
           Sample.bm25_of (Sample.chain_saying "implemented") "q").
  - apply fresh_consistent.
  - reflexivity.
  - reflexivity.
  - reflexivity.
Defined.

(** ** The constructors never see an empty list *)

Section Guards.
Context {F : Type}.
Lemma add_documents_agree (b1 b2 : @Backend F) documents (w : @World F) :
  agree_on_documents b1 b2 ->
  _store (vector_store w) <> None \/ documents <> [] ->
  add_documents b1 documents w = add_documents b2 documents w.
Proof.
  intros [Hff [Hfa Hbm]] Hguard.
  destruct w as [[store bm docs] file]; run_store.
  assert (Hindex : match store with
                   | Some index => FAISS_add_documents b1 index documents
                   | None => FAISS_from_documents b1 documents
                   end
                   = match store with
                     | Some index => FAISS_add_documents b2 index documents
                     | None => FAISS_from_documents b2 documents
                     end).
  { destruct store as [index|]; [apply Hfa|].
    apply Hff; destruct Hguard as [H|H]; [now elim H | exact H]. }
  destruct store as [index|]; cbn in Hindex |- *; rewrite Hindex;
    (match goal with
     | |- context [match ?r with Return _ => _ | Raise _ => _ end] =>
         destruct r as [index'|e]
     end; [|reflexivity]); cbn;
    (destruct (docs ++ documents)%list as [|d rest] eqn:E; [reflexivity|]);
    cbn; rewrite (Hbm (d :: rest)) by discriminate; reflexivity.
Qed.

Lemma load_or_create_agree (b1 b2 : @Backend F) documents (w : @World F) :
  agree_on_documents b1 b2 ->
  load_or_create b1 documents w = load_or_create b2 documents w.
Proof.
  intros Hagree; pose proof Hagree as [Hff [Hfa Hbm]].
  destruct w as [[store bm docs] file].
  destruct file as [index|]; destruct documents as [|d documents];
    run_store.
  - destruct docs as [|d0 docs]; [reflexivity|destruct bm; [reflexivity|]].
    rewrite (Hbm (d0 :: docs)) by discriminate; reflexivity.
  - rewrite (add_documents_agree b1 b2) by (auto; left; discriminate).
    match goal with
    | |- context [add_documents b2 ?docs ?w0] =>
        destruct (add_documents b2 docs w0) as [[[]|e] w1]
    end; [|reflexivity].
    destruct (_documents (vector_store w1)) as [|d1 rest]; [reflexivity|].
    destruct (_bm25 (vector_store w1)); [reflexivity|].
    rewrite (Hbm (d1 :: rest)) by discriminate; reflexivity.
  - destruct docs as [|d0 docs]; [reflexivity|destruct bm; [reflexivity|]].
    rewrite (Hbm (d0 :: docs)) by discriminate; reflexivity.
  - rewrite (Hff (d :: documents)) by discriminate.
    destruct (FAISS_from_documents b2 (d :: documents)) as [ix|e];
      [|reflexivity]; cbn.
    destruct (docs ++ d :: documents)%list as [|d1 rest] eqn:E;
      [destruct docs; discriminate|].
    destruct bm; [reflexivity|].
    rewrite (Hbm (d1 :: rest)) by discriminate; reflexivity.
Qed.

End Guards.

(** X15: [ingest] and [load_or_create] never hand an empty list of
    documents to [FAISS.from_documents] or to
    [BM25Retriever.from_documents]: two backends that differ only in
    what these constructors do with an empty list give the same outcome
    and the same state. *)
Theorem ingest_never_builds_from_nothing (F : Type) (loaders : Loaders)
  (b1 b2 : @Backend F) (w : @World F) :
  agree_on_documents b1 b2 ->
  (forall paths, ingest loaders b1 paths w = ingest loaders b2 paths w)
  /\ (forall documents,
         load_or_create b1 documents w = load_or_create b2 documents w).
Proof.
  intros Hagree; split.
  - intros paths; unfold ingest, bindS, lift, gets.
    destruct (process_all loaders paths) as [docs|e]; [|reflexivity].
    destruct (_store (vector_store w)) as [index|] eqn:Hstore.
    + apply add_documents_agree; [assumption|].
      left; rewrite Hstore; discriminate.
    + now rewrite (load_or_create_agree b1 b2).
  - intros documents; now apply load_or_create_agree.
Qed.

Lemma ingest_never_builds_from_nothing_witness :
  agree_on_documents SampleStore.backend SampleStore.strict_backend
  /\ ingest SampleStore.loaders SampleStore.strict_backend
       [SampleStore.report] SampleStore.started
     = (Return tt, SampleStore.ingested).
Proof.
  assert (Hagree : agree_on_documents SampleStore.backend
                     SampleStore.strict_backend).
  { repeat split.
    - intros [|d docs] Hne; [now elim Hne | reflexivity].
    - intros [|d docs] Hne; [now elim Hne | reflexivity]. }
  split; [exact Hagree|].
  rewrite <- (proj1 (ingest_never_builds_from_nothing Q SampleStore.loaders
                       SampleStore.backend SampleStore.strict_backend
                       SampleStore.started Hagree) [SampleStore.report]).
  reflexivity.
Defined.

(** ** [hybrid_parser.py]: units *)

Ltac split_unit_keys unit :=
  repeat match goal with
         | |- context [String.eqb unit ?k] =>
             let E := fresh "E" in destruct (String.eqb unit k) eqn:E
         end.

Lemma normalize_unit_cases (c : ascii) (s : string) :
  let raw := String c s in
  (In (remove_spaces (PyStr.lower raw)) (PyDict.keys unit_mapping)
   /\ exists r, In r canonical_units /\ _normalize_unit (Some raw) = Some r
                /\ PyDict.get (remove_spaces (PyStr.lower raw)) unit_mapping
                   = Some r)
  \/ (~ In (remove_spaces (PyStr.lower raw)) (PyDict.keys unit_mapping)
      /\ _normalize_unit (Some raw) = Some raw
      /\ PyDict.get (remove_spaces (PyStr.lower raw)) unit_mapping = None).
Proof.
  intros raw; cbn [_normalize_unit]; fold raw.
  unfold PyDict.get_default.
  remember (remove_spaces (PyStr.lower raw)) as unit eqn:Hu.
  unfold unit_mapping, PyDict.get, PyDict.keys, canonical_units; cbn [map fst].
  split_unit_keys unit;
    try (left; split;
         [ match goal with
           | E : String.eqb unit _ = true |- _ =>
               apply String.eqb_eq in E; rewrite E; simpl; tauto
           end
         | eexists; split; [|split; reflexivity]; simpl; tauto ]).
  right; split; [|split; reflexivity].
  simpl; intros Hin.
  repeat match goal with
         | E : String.eqb unit _ = false |- _ =>
             apply String.eqb_neq in E
         end.
  intuition congruence.
Qed.

(** X16: normalising a unit twice gives what normalising it once
    gives: the canonical spellings are fixed, and so is every unit the
    table does not know. *)
Theorem normalize_unit_idempotent (raw_unit : option string) :
  _normalize_unit (_normalize_unit raw_unit) = _normalize_unit raw_unit.
Proof.
  destruct raw_unit as [[|c s]|]; try reflexivity.
  pose proof (normalize_unit_cases c s) as H; cbv zeta in H.
  destruct H as [[_ [r [Hr [H _]]]] | [_ [H _]]]; rewrite H.
  - simpl in Hr; destruct Hr as [<- | [<- | [<- | [<- | []]]]]; reflexivity.
  - exact H.
Qed.

(** X17: [_normalize_unit] gives [None] exactly for [None] and for the
    empty string; any other unit comes back as one of tCO2e, MW, GWh, m3
    or unchanged; and two units that differ only in letter case and
    spaces get the same result when the table knows them. *)
Theorem normalize_unit_spec :
  (forall raw_unit,
      _normalize_unit raw_unit = None
      <-> raw_unit = None \/ raw_unit = Some EmptyString)
  /\ (forall raw r,
         _normalize_unit (Some raw) = Some r ->
         In r canonical_units \/ r = raw)
  /\ (forall a b,
         a <> EmptyString -> b <> EmptyString ->
         remove_spaces (PyStr.lower a) = remove_spaces (PyStr.lower b) ->
         In (remove_spaces (PyStr.lower a)) (PyDict.keys unit_mapping) ->
         _normalize_unit (Some a) = _normalize_unit (Some b)).
Proof.
  split; [|split].
  - intros [[|c s]|]; simpl; split; intros H; auto; try discriminate;
      destruct H as [H|H]; discriminate.
  - intros [|c s] r; [discriminate|].
    pose proof (normalize_unit_cases c s) as H; cbv zeta in H.
    destruct H as [[_ [r' [Hr [H _]]]] | [_ [H _]]]; rewrite H;
      intros [= <-]; auto.
  - intros [|c s] [|c' s'] Ha Hb Hsame Hin; try congruence.
    pose proof (normalize_unit_cases c s) as H; cbv zeta in H.
    pose proof (normalize_unit_cases c' s') as H'; cbv zeta in H'.
    destruct H as [[_ [r [_ [-> Hget]]]] | [Hnot _]]; [|contradiction].
    rewrite Hsame in Hget, Hin.
    destruct H' as [[_ [r' [_ [-> Hget']]]] | [Hnot _]]; [|contradiction].
    congruence.
Qed.

Lemma normalize_unit_spec_witness :
  "M W" <> EmptyString /\ "mw" <> EmptyString
  /\ _normalize_unit (Some "M W") = _normalize_unit (Some "mw").
Proof.
  assert (Ha : "M W" <> EmptyString) by discriminate.
  assert (Hb : "mw" <> EmptyString) by discriminate.
  split; [exact Ha | split; [exact Hb|]].
  apply (proj2 (proj2 normalize_unit_spec) "M W" "mw" Ha Hb).
  - reflexivity.
  - simpl; tauto.
Defined.

(** ** [hybrid_parser.py]: linking a cell *)





(** ** [hybrid_parser.py]: every cell is linked *)

Lemma link_cell_returns (cell : Cell) (narrative_chunks : list Document)
  (document : Document) :
  unit_ok cell ->
  exists linked, _link_cell cell narrative_chunks document = Return linked.
Proof.
  unfold unit_ok, _link_cell, normalize_unit_of; intros Hok.
  destruct (py_get "unit" cell) as [s|n|]; simpl; try (eexists; reflexivity).
  rewrite (Hok n eq_refl); simpl; eexists; reflexivity.
Qed.

Section ParseFacts.
Variables (narrative_chunks : list Document) (document : Document).

Lemma link_loop_raise (cells : list Cell) (e : exn) :
  fold_left
    (fun acc cell =>
       linked_cells <- acc ;;
       linked <- _link_cell cell narrative_chunks document ;;
       Return (linked_cells ++ [linked])%list)
    cells (Raise e)
  = Raise e.
Proof. induction cells as [|c cells IH]; simpl; auto. Qed.

Lemma link_loop_return (cells : list Cell) :
  forall done,
    Forall unit_ok cells ->
    exists more,
      fold_left
        (fun acc cell =>
           linked_cells <- acc ;;
           linked <- _link_cell cell narrative_chunks document ;;
           Return (linked_cells ++ [linked])%list)
        cells (Return done)
      = Return (done ++ more)%list
      /\ Forall2 (fun cell linked =>
                    _link_cell cell narrative_chunks document = Return linked)
           cells more.
Proof.
  induction cells as [|cell cells IH]; intros done Hok.
  - exists []; simpl; rewrite app_nil_r; split; [reflexivity | constructor].
  - inversion Hok as [|? ? Hcell Hrest]; subst.
    destruct (link_cell_returns cell narrative_chunks document Hcell)
      as [linked Hlinked].
    destruct (IH (done ++ [linked])%list Hrest) as [more [Hrun Hall]].
    exists (linked :: more); simpl; rewrite Hlinked; simpl.
    rewrite Hrun, <- app_assoc; split; [reflexivity|].
    now constructor.
Qed.

Lemma table_loop_return (tables : list Table) :
  forall done,
    Forall unit_ok (all_cells tables) ->
    exists more,
      fold_left
        (fun acc table =>
           fold_left
             (fun acc cell =>
                linked_cells <- acc ;;
                linked <- _link_cell cell narrative_chunks document ;;
                Return (linked_cells ++ [linked])%list)
             (PyDict.get_default "cells" [] table) acc)
        tables (Return done)
      = Return (done ++ more)%list
      /\ Forall2 (fun cell linked =>
                    _link_cell cell narrative_chunks document = Return linked)
           (all_cells tables) more.
Proof.
  induction tables as [|table tables IH]; intros done Hok.
  - exists []; simpl; rewrite app_nil_r; split; [reflexivity | constructor].
  - unfold all_cells in Hok; simpl in Hok.
    apply Forall_app in Hok; destruct Hok as [Hhere Hrest].
    destruct (link_loop_return _ done Hhere) as [here [Hrun Hall]].
    destruct (IH (done ++ here)%list Hrest) as [more [Hrun' Hall']].
    exists (here ++ more)%list; simpl; rewrite Hrun, Hrun', <- app_assoc.
    split; [reflexivity|].
    unfold all_cells; simpl; now apply Forall2_app.
Qed.

End ParseFacts.

(** X19: when the splitter returns and no cell has an integer other
    than 0 as unit, [parse_document] returns one linked cell for every
    cell of every table, in the order of the tables and of their cells,
    each the result of [_link_cell] against the chunks of the document. *)
Theorem parse_document_links_every_cell
  (text_splitter : list Document -> result (list Document))
  (tables : list Table) (document : Document)
  (narrative_chunks : list Document) :
  text_splitter [document] = Return narrative_chunks ->
  Forall unit_ok (all_cells tables) ->
  exists linked_cells,
    parse_document text_splitter tables document = Return linked_cells
    /\ Forall2 (fun cell linked =>
                  _link_cell cell narrative_chunks document = Return linked)
         (all_cells tables) linked_cells.
Proof.
  intros Hsplit Hok; unfold parse_document; rewrite Hsplit; simpl.
  destruct (table_loop_return narrative_chunks document tables [] Hok)
    as [more [Hrun Hall]].
  exists more; split; [exact Hrun | exact Hall].
Qed.

Lemma parse_document_links_every_cell_witness :
  exists linked_cells,
    parse_document SampleParser.splitter SampleParser.tables Sample.minutes
    = Return linked_cells
    /\ Forall2 (fun cell linked =>
                  _link_cell cell [Sample.solar; Sample.wind] Sample.minutes
                  = Return linked)
         [SampleParser.energy; SampleParser.emissions; SampleParser.count]
         linked_cells.
Proof.
  apply (parse_document_links_every_cell SampleParser.splitter
           SampleParser.tables Sample.minutes [Sample.solar; Sample.wind]).
  - reflexivity.
  - repeat constructor; intros n Hn; simpl in Hn;
      first [discriminate Hn | now injection Hn as <-].
Defined.

(** ** [app_streamlit.py]: the sources shown and the prompt *)







Lemma nth_error_enumerate_from {A : Type} (l : list A) :
  forall start i,
    nth_error (enumerate_from start l) i
    = option_map (fun x => ((start + i)%nat, x)) (nth_error l i).
Proof.
  induction l as [|x l IH]; intros start [|i]; simpl; try reflexivity.
  - now rewrite Nat.add_0_r.
  - rewrite IH; now rewrite Nat.add_succ_r.
Qed.

Lemma length_enumerate_from {A : Type} (l : list A) :
  forall start, List.length (enumerate_from start l) = List.length l.
Proof.
  induction l as [|x l IH]; intros start; simpl; [reflexivity|].
  now rewrite IH.
Qed.

Module AppStreamlitFacts.
Import AppStreamlit.

(** The entry [format_sources] makes of the document at position [i]. *)
Lemma format_sources_loop (max_chars : Z) (docs : list Document) :
  forall start sources,
    fold_left
      (fun sources '(i, d) =>
         (sources
            ++ [mkSource i
                  (PyDict.get_default "source" (MStr "unknown") (metadata d))
                  (PyDict.get_default "page" MNone (metadata d))
                  (PyDict.get_default "chunk" MNone (metadata d))
                  (str_slice_to max_chars (page_content d))])%list)
      (enumerate_from start docs) sources
    = (sources
         ++ map (fun '(i, d) =>
                   mkSource i
                     (PyDict.get_default "source" (MStr "unknown")
                        (metadata d))
                     (PyDict.get_default "page" MNone (metadata d))
                     (PyDict.get_default "chunk" MNone (metadata d))
                     (str_slice_to max_chars (page_content d)))
              (enumerate_from start docs))%list.
Proof.
  induction docs as [|d docs IH]; intros start sources; simpl.
  - now rewrite app_nil_r.
  - rewrite IH, <- app_assoc; reflexivity.
Qed.

Lemma format_sources_nth (max_chars : Z) (docs : list Document) (i : nat)
  (d : Document) :
  nth_error docs i = Some d ->
  nth_error (format_sources docs max_chars) i
  = Some (mkSource (S i)
            (PyDict.get_default "source" (MStr "unknown") (metadata d))
            (PyDict.get_default "page" MNone (metadata d))
            (PyDict.get_default "chunk" MNone (metadata d))
            (str_slice_to max_chars (page_content d))).
Proof.
  intros Hd; unfold format_sources.
  rewrite format_sources_loop; cbn [app].
  rewrite nth_error_map, nth_error_enumerate_from, Hd; reflexivity.
Qed.

Lemma format_sources_length (max_chars : Z) (docs : list Document) :
  List.length (format_sources docs max_chars) = List.length docs.
Proof.
  unfold format_sources; rewrite format_sources_loop; cbn [app].
  now rewrite length_map, length_enumerate_from.
Qed.

Lemma context_blocks_loop (docs : list Document) :
  forall start blocks,
    fold_left
      (fun context_blocks '(i, d) =>
         (context_blocks
            ++ [("Source [" ++ str_of_nat i ++ "]:" ++ nl
                 ++ page_content d)%string])%list)
      (enumerate_from start docs) blocks
    = (blocks
         ++ map (fun '(i, text) =>
                   ("Source [" ++ str_of_nat i ++ "]:" ++ nl ++ text)%string)
              (enumerate_from start (map page_content docs)))%list.
Proof.
  induction docs as [|d docs IH]; intros start blocks; simpl.
  - now rewrite app_nil_r.
  - rewrite IH, <- app_assoc; reflexivity.
Qed.

Lemma context_blocks_nth (docs : list Document) (i : nat) (d : Document) :
  nth_error docs i = Some d ->
  nth_error (context_blocks docs) i
  = Some ("Source [" ++ str_of_nat (S i) ++ "]:" ++ nl ++ page_content d).
Proof.
  intros Hd; unfold context_blocks.
  rewrite context_blocks_loop; cbn [app].
  rewrite nth_error_map, nth_error_enumerate_from, nth_error_map, Hd.
  reflexivity.
Qed.

Lemma context_blocks_length (docs : list Document) :
  List.length (context_blocks docs) = List.length docs.
Proof.
  unfold context_blocks; rewrite context_blocks_loop; cbn [app].
  now rewrite length_map, length_enumerate_from, length_map.
Qed.

End AppStreamlitFacts.



(** X21: the number that cites a source in the prompt is the [id] of its
    entry in the list of sources: [answer_question] sends one block per
    retrieved document, and the block at the place of an entry of
    [format_sources] is headed "Source [id]:" and holds the whole text
    of the document the entry shows the beginning of. *)
Theorem citations_match_sources (llm : AppStreamlit.ChatModel)
  (question : string) (retrieved_docs : list Document) (max_chars : Z) :
  exists blocks,
    AppStreamlit.answer_question llm question retrieved_docs
    = AppStreamlit.invoke llm
        (AppStreamlit.format_messages question
           (String.concat (nl ++ nl ++ "---" ++ nl ++ nl) blocks))
    /\ List.length blocks = List.length retrieved_docs
    /\ forall i s,
         nth_error (AppStreamlit.format_sources retrieved_docs max_chars) i
         = Some s ->
         exists d,
           nth_error retrieved_docs i = Some d
           /\ nth_error blocks i
              = Some ("Source [" ++ str_of_nat (AppStreamlit.id s) ++ "]:"
                      ++ nl ++ page_content d)
           /\ AppStreamlit.text s = str_slice_to max_chars (page_content d).
Proof.
  exists (AppStreamlit.context_blocks retrieved_docs).
  split; [reflexivity|].
  split; [apply AppStreamlitFacts.context_blocks_length|].
  intros i s Hs.
  destruct (nth_error retrieved_docs i) as [d|] eqn:Hd.
  - exists d; split; [reflexivity|].
    rewrite (AppStreamlitFacts.format_sources_nth _ _ _ _ Hd) in Hs.
    injection Hs as <-; cbn [AppStreamlit.id AppStreamlit.text].
    split; [now apply AppStreamlitFacts.context_blocks_nth | reflexivity].
  - apply nth_error_None in Hd.
    rewrite <- (AppStreamlitFacts.format_sources_length max_chars) in Hd.
    apply nth_error_None in Hd; congruence.
Qed.

(** X22: only the texts of the retrieved documents reach the model: two
    retrievals with the same texts in the same order give the same call,
    whatever their metadata; and with nothing retrieved the model is
    still called, with an empty list of sources. *)
Theorem answer_question_sends_texts_only (llm : AppStreamlit.ChatModel)
  (question : string) (retrieved_docs retrieved_docs' : list Document) :
  map page_content retrieved_docs = map page_content retrieved_docs' ->
  AppStreamlit.answer_question llm question retrieved_docs
  = AppStreamlit.answer_question llm question retrieved_docs'
  /\ AppStreamlit.answer_question llm question []
     = AppStreamlit.invoke llm
         [ ("system", AppStreamlit.system_message);
           ("human",
            "Question:" ++ nl ++ question ++ nl ++ nl ++ "Sources:" ++ nl) ].
Proof.
  intros Htexts; split.
  - unfold AppStreamlit.answer_question, AppStreamlit.context_blocks.
    now rewrite !AppStreamlitFacts.context_blocks_loop, Htexts.
  - unfold AppStreamlit.answer_question, AppStreamlit.format_messages.
    cbn [AppStreamlit.context_blocks enumerate_from fold_left String.concat].
    reflexivity.
Qed.

Lemma answer_question_sends_texts_only_witness :
  AppStreamlit.answer_question SampleApp.llm "Which projects are funded?"
    [Sample.solar; Sample.wind]
  = AppStreamlit.answer_question SampleApp.llm "Which projects are funded?"
      [mkDocument (page_content Sample.solar) [];
       mkDocument (page_content Sample.wind) [("page", MInt 9)]].
Proof.
  apply (answer_question_sends_texts_only SampleApp.llm
           "Which projects are funded?"
           [Sample.solar; Sample.wind]
           [mkDocument (page_content Sample.solar) [];
            mkDocument (page_content Sample.wind) [("page", MInt 9)]]).
  reflexivity.
Defined.

(** ** [app_streamlit.py]: from the pages of a PDF to documents *)




Lemma StronglySorted_app {A : Type} (R : A -> A -> Prop) (l1 l2 : list A) :
  StronglySorted R l1 -> StronglySorted R l2 ->
  (forall x y, In x l1 -> In y l2 -> R x y) ->
  StronglySorted R (l1 ++ l2).
Proof.
  induction 1 as [|x l1 Hsorted IH Hx]; intros H2 Hcross; simpl.
  - exact H2.
  - constructor.
    + apply IH; [exact H2|].
      intros a b Ha Hb; apply Hcross; [now right | exact Hb].
    + apply Forall_app; split; [exact Hx|].
      apply Forall_forall; intros y Hy; apply Hcross; [now left | exact Hy].
Qed.

Module ExtractFacts.
Import AppStreamlit.

Section Loop.
Variables (split_text : string -> result (list string))
  (source_name : string).

Lemma add_chunks_closed (pno : nat) (chunks : list string)
  (docs : list Document) :
  add_chunks source_name pno chunks docs
  = (docs
       ++ map (fun item => chunk_document source_name pno (fst item)
                             (snd item))
            (enumerate chunks))%list.
Proof.
  unfold add_chunks, enumerate; generalize 0%nat; revert docs.
  induction chunks as [|chunk chunks IH]; intros docs start; simpl.
  - now rewrite app_nil_r.
  - rewrite IH, <- app_assoc; reflexivity.
Qed.

Lemma extract_loop_raise (pages : list (nat * string)) (e : exn) :
  fold_left (extract_page split_text source_name) pages (Raise e) = Raise e.
Proof.
  induction pages as [|[pno text] pages IH]; simpl; [reflexivity | exact IH].
Qed.

Lemma extract_loop_inv (pages : list (nat * string)) :
  forall docs0 docs,
    fold_left (extract_page split_text source_name) pages (Return docs0)
    = Return docs ->
    exists per_page,
      docs = (docs0 ++ List.concat per_page)%list
      /\ Forall2 (page_gives split_text source_name) pages per_page.
Proof.
  induction pages as [|[pno text] pages IH]; intros docs0 docs; simpl.
  - intros [= <-]; exists []; simpl; rewrite app_nil_r; now split.
  - destruct (strip text) as [|c rest] eqn:Hstrip.
    + intros Hrun; destruct (IH _ _ Hrun) as [per_page [-> Hall]].
      exists ([] :: per_page); split; [reflexivity|].
      constructor; [left; now split | exact Hall].
    + destruct (split_text (String c rest)) as [chunks|e] eqn:Hsplit; simpl.
      * intros Hrun; destruct (IH _ _ Hrun) as [per_page [-> Hall]].
        rewrite add_chunks_closed, <- app_assoc.
        eexists (_ :: per_page); split; [reflexivity|].
        constructor; [|exact Hall].
        right; simpl; rewrite Hstrip; split; [discriminate|].
        exists chunks; now split.
      * rewrite extract_loop_raise; discriminate.
Qed.



Lemma position_lt_chunk (p1 c1 p2 c2 : nat) (x1 x2 : string) :
  position_lt (chunk_document source_name p1 c1 x1)
    (chunk_document source_name p2 c2 x2)
  <-> (p1 < p2 \/ (p1 = p2 /\ c1 < c2))%nat.
Proof.
  unfold position_lt, chunk_document, py_get; cbn; lia.
Qed.

Lemma in_enumerate_nth {A : Type} (l : list A) :
  forall start i x,
    In (i, x) (enumerate_from start l)
    <-> exists j, i = (start + j)%nat /\ nth_error l j = Some x.
Proof.
  induction l as [|y l IH]; intros start i x; simpl.
  - split; [intros [] | intros [[|j] [_ H]]; discriminate].
  - split.
    + intros [[= <- <-] | Hin].
      * exists 0%nat; split; [lia | reflexivity].
      * apply IH in Hin; destruct Hin as [j [-> Hj]].
        exists (S j); split; [lia | exact Hj].
    + intros [[|j] [-> Hj]]; simpl in Hj.
      * injection Hj as <-; left; f_equal; lia.
      * right; apply IH; exists j; split; [lia | exact Hj].
Qed.

Lemma in_page_docs (pno : nat) (chunks : list string) (d : Document) :
  In d (map (fun item => chunk_document source_name pno (fst item)
                           (snd item))
          (enumerate chunks))
  <-> exists ci chunk,
        nth_error chunks ci = Some chunk
        /\ d = chunk_document source_name pno ci chunk.
Proof.
  rewrite in_map_iff; unfold enumerate; split.
  - intros [[ci chunk] [<- Hin]]; apply in_enumerate_nth in Hin.
    destruct Hin as [j [-> Hj]]; exists j, chunk; now split.
  - intros [ci [chunk [Hci ->]]]; exists (ci, chunk); split; [reflexivity|].
    apply in_enumerate_nth; exists ci; now split.
Qed.

Lemma page_docs_sorted (pno : nat) (chunks : list string) :
  StronglySorted position_lt
    (map (fun item => chunk_document source_name pno (fst item) (snd item))
       (enumerate chunks)).
Proof.
  unfold enumerate; generalize 0%nat.
  induction chunks as [|chunk chunks IH]; intros start; simpl.
  - constructor.
  - constructor; [apply IH|].
    apply Forall_forall; intros d Hd; apply in_map_iff in Hd.
    destruct Hd as [[ci chunk'] [<- Hin]]; apply in_enumerate_nth in Hin.
    destruct Hin as [j [-> _]]; apply position_lt_chunk; simpl; lia.
Qed.

Lemma per_page_members (pages : list string) :
  forall start per_page,
    Forall2 (page_gives split_text source_name) (enumerate_from start pages)
      per_page ->
    forall d,
      In d (List.concat per_page)
      <-> exists i text chunks ci chunk,
            nth_error pages i = Some text
            /\ strip text <> EmptyString
            /\ split_text (strip text) = Return chunks
            /\ nth_error chunks ci = Some chunk
            /\ d = chunk_document source_name (start + i) ci chunk.
Proof.
  induction pages as [|text pages IH]; intros start per_page Hall d;
    simpl in Hall; inversion Hall as [|page pd pages' rest Hpage Hrest];
    subst; simpl.
  - split; [intros [] | intros [[|i] [t [c [ci [ch [H _]]]]]]; discriminate].
  - rewrite in_app_iff, (IH _ _ Hrest); split.
    + intros [Hin | [i [t [chunks [ci [chunk [Hi [Ht [Hs [Hci ->]]]]]]]]]].
      * destruct Hpage as [[_ ->] | [Ht [chunks [Hs ->]]]]; [destruct Hin|].
        apply in_page_docs in Hin; destruct Hin as [ci [chunk [Hci ->]]].
        exists 0%nat, text, chunks, ci, chunk; simpl in *.
        rewrite Nat.add_0_r; repeat split; assumption.
      * exists (S i), t, chunks, ci, chunk; simpl.
        rewrite Nat.add_succ_r; repeat split; assumption.
    + intros [[|i] [t [chunks [ci [chunk [Hi [Ht [Hs [Hci ->]]]]]]]]];
        simpl in Hi.
      * injection Hi as <-; left.
        destruct Hpage as [[Hblank _] | [_ [chunks' [Hs' ->]]]];
          simpl in *; [contradiction|].
        assert (chunks' = chunks) by congruence; subst chunks'.
        rewrite Nat.add_0_r; apply in_page_docs; exists ci, chunk; now split.
      * right; exists i, t, chunks, ci, chunk.
        rewrite Nat.add_succ_r; repeat split; assumption.
Qed.

Lemma per_page_sorted (pages : list string) :
  forall start per_page,
    Forall2 (page_gives split_text source_name) (enumerate_from start pages)
      per_page ->
    StronglySorted position_lt (List.concat per_page).
Proof.
  induction pages as [|text pages IH]; intros start per_page Hall;
    simpl in Hall; inversion Hall as [|page pd pages' rest Hpage Hrest];
    subst; simpl; [constructor|].
  apply StronglySorted_app; [|now apply (IH (S start))|].
  - destruct Hpage as [[_ ->] | [_ [chunks [_ ->]]]];
      [constructor | apply page_docs_sorted].
  - intros x y Hx Hy.
    apply (per_page_members _ _ _ Hrest) in Hy.
    destruct Hy as [i [t [chunks [ci [chunk [_ [_ [_ [_ ->]]]]]]]]].
    destruct Hpage as [[_ ->] | [_ [chunks' [_ ->]]]]; [destruct Hx|].
    apply in_page_docs in Hx; destruct Hx as [ci' [chunk' [_ ->]]].
    apply position_lt_chunk; simpl; lia.
Qed.

End Loop.
End ExtractFacts.


Lemma StronglySorted_nth {A : Type} (R : A -> A -> Prop) (l : list A) :
  StronglySorted R l ->
  forall i j x y,
    (i < j)%nat -> nth_error l i = Some x -> nth_error l j = Some y ->
    R x y.
Proof.
  induction 1 as [|a l Hsorted IH Ha]; intros i j x y Hij Hi Hj.
  - destruct i; discriminate.
  - destruct j as [|j]; [lia|]; simpl in Hj.
    destruct i as [|i]; simpl in Hi.
    + injection Hi as <-.
      rewrite Forall_forall in Ha; apply Ha; now apply nth_error_In in Hj.
    + apply (IH i j); [lia | assumption | assumption].
Qed.

Lemma position_lt_differs (d1 d2 : Document) :
  AppStreamlit.position_lt d1 d2 ->
  py_get "page" (metadata d1) = py_get "page" (metadata d2) ->
  py_get "chunk" (metadata d1) = py_get "chunk" (metadata d2) ->
  False.
Proof.
  unfold AppStreamlit.position_lt; intros Hlt Hpage Hchunk.
  rewrite <- Hpage, <- Hchunk in Hlt.
  destruct (py_get "page" (metadata d1)); try contradiction.
  destruct (py_get "chunk" (metadata d1)); try contradiction.
  lia.
Qed.



(** X24: the documents come in reading order, by page and then by chunk
    within the page; so no two of them have the same page and chunk
    numbers. *)
Theorem extract_pdf_reading_order (tools : AppStreamlit.PdfTools)
  (pdf_bytes : list Byte.byte) (source_name : string)
  (chunk_size chunk_overlap : Z) (docs : list Document) :
  AppStreamlit.extract_pdf_to_chunked_docs tools pdf_bytes source_name
    chunk_size chunk_overlap
  = Return docs ->
  StronglySorted AppStreamlit.position_lt docs
  /\ forall i j d1 d2,
       nth_error docs i = Some d1 -> nth_error docs j = Some d2 ->
       py_get "page" (metadata d1) = py_get "page" (metadata d2) ->
       py_get "chunk" (metadata d1) = py_get "chunk" (metadata d2) ->
       i = j.
Proof.
  unfold AppStreamlit.extract_pdf_to_chunked_docs.
  destruct (AppStreamlit.RecursiveCharacterTextSplitter tools chunk_size
              chunk_overlap) as [split_text|e]; [|discriminate].
  destruct (AppStreamlit.fitz_open tools pdf_bytes) as [pdf|e];
    [|discriminate].
  cbn [bind]; intros Hrun.
  apply ExtractFacts.extract_loop_inv in Hrun.
  destruct Hrun as [per_page [-> Hall]]; cbn [app].
  assert (Hsorted : StronglySorted AppStreamlit.position_lt
                      (List.concat per_page))
    by (apply (ExtractFacts.per_page_sorted split_text source_name pdf 0);
        exact Hall).
  split; [exact Hsorted|].
  intros i j d1 d2 Hi Hj Hpage Hchunk.
  destruct (Nat.lt_total i j) as [Hlt | [Heq | Hgt]]; [|exact Heq|]; exfalso.
  - apply (position_lt_differs d1 d2); try assumption.
    exact (StronglySorted_nth _ _ Hsorted i j d1 d2 Hlt Hi Hj).
  - apply (position_lt_differs d2 d1); try (symmetry; assumption).
    exact (StronglySorted_nth _ _ Hsorted j i d2 d1 Hgt Hj Hi).
Qed.

Lemma extract_pdf_reading_order_witness :
  exists docs,
    AppStreamlit.extract_pdf_to_chunked_docs
      (SampleApp.tools SampleApp.report) [] "report.pdf" 1200 150
    = Return docs
    /\ List.length docs = 3%nat
    /\ StronglySorted AppStreamlit.position_lt docs.
Proof.
  eexists; split; [reflexivity|]; split; [reflexivity|].
  apply (extract_pdf_reading_order (SampleApp.tools SampleApp.report) []
           "report.pdf" 1200 150).
  reflexivity.
Defined.



(** ** [core/config.py] *)

Module ConfigFacts.
Import Config.

Section Facts.
Context {PL : Pathlib}.

Lemma from_dict_to_dict (config : AppConfig) :
  (forall p, Path_of_str (str_of_path p) = p) ->
  from_dict (to_dict config) = Return config.
Proof.
  intros Hpath; destruct config as [data cache [emb llm]].
  unfold from_dict, to_dict; cbn.
  now rewrite !Hpath.
Qed.

Lemma Path_of_cases (v : option json) (default : path) :
  (exists p, Path_of v default = Return p
             /\ forall x, v = Some x -> exists s, x = JStr s)
  \/ (exists x, v = Some x /\ (forall s, x <> JStr s)
                /\ Path_of v default
                   = Raise (TypeError (not_a_path (type_name x)))).
Proof.
  destruct v as [x|].
  - destruct x; simpl;
      try (right; eexists; split; [reflexivity|];
           split; [intros s; discriminate | reflexivity]).
    left; eexists; split; [reflexivity|].
    intros x [= <-]; now eexists.
  - left; eexists; split; [reflexivity | intros x; discriminate].
Qed.

Lemma dict_get_cases (v : json) (key : string) :
  (exists entries, v = JDict entries
                   /\ dict_get v key = Return (PyDict.get key entries))
  \/ ((forall entries, v <> JDict entries)
      /\ dict_get v key
         = Raise (AttributeError
                    ("'" ++ type_name v ++ "' object has no attribute 'get'"))).
Proof.
  destruct v; simpl;
    try (right; split; [intros entries; discriminate | reflexivity]).
  left; eexists; split; reflexivity.
Qed.

(** The payloads [from_dict] accepts. *)
Lemma from_dict_cases (payload : json) :
  (exists config entries,
      from_dict payload = Return config
      /\ payload = JDict entries
      /\ (forall v, PyDict.get "data_dir" entries = Some v ->
                    exists s, v = JStr s)
      /\ (forall v, PyDict.get "cache_dir" entries = Some v ->
                    exists s, v = JStr s)
      /\ (forall v, PyDict.get "model_registry" entries = Some v ->
                    exists registry, v = JDict registry))
  \/ (exists e,
         from_dict payload = Raise e
         /\ (exn_type e = "AttributeError" \/ exn_type e = "TypeError")
         /\ forall entries,
              payload = JDict entries ->
              (exists v, PyDict.get "data_dir" entries = Some v
                         /\ forall s, v <> JStr s)
              \/ (exists v, PyDict.get "cache_dir" entries = Some v
                            /\ forall s, v <> JStr s)
              \/ (exists v, PyDict.get "model_registry" entries = Some v
                            /\ forall registry, v <> JDict registry)).
Proof.
  unfold from_dict.
  destruct (dict_get_cases payload "model_registry")
    as [[entries [-> Hget]] | [Hnot Hget]]; rewrite Hget; cbn [bind];
    [|right; eexists; split; [reflexivity|]; split; [now left|];
      intros entries Hp; now destruct (Hnot entries)].
  cbn [dict_get bind].
  destruct (Path_of_cases (PyDict.get "data_dir" entries)
              (joinpath CONFIG_DIR "data"))
    as [[data [Hdata Hdata_ok]] | [v [Hv [Hbad Hdata]]]];
    rewrite Hdata; cbn [bind];
    [|right; eexists; split; [reflexivity|]; split; [now right|];
      intros entries' [= <-]; left; now exists v].
  destruct (Path_of_cases (PyDict.get "cache_dir" entries)
              (joinpath CONFIG_DIR "cache"))
    as [[cache [Hcache Hcache_ok]] | [v [Hv [Hbad Hcache]]]];
    rewrite Hcache; cbn [bind];
    [|right; eexists; split; [reflexivity|]; split; [now right|];
      intros entries' [= <-]; right; left; now exists v].
  destruct (PyDict.get "model_registry" entries) as [registry|] eqn:Hreg;
    cbn [or_default].
  - destruct (dict_get_cases registry "embeddings")
      as [[r [-> Hemb]] | [Hnot Hemb]]; rewrite Hemb; cbn [bind].
    + left; do 2 eexists; split; [reflexivity|]; split; [reflexivity|].
      split; [exact Hdata_ok|]; split; [exact Hcache_ok|].
      rewrite Hreg; intros v [= <-]; now eexists.
    + right; eexists; split; [reflexivity|]; split; [now left|].
      intros entries' [= <-]; right; right; exists registry; now split.
  - left; do 2 eexists; split; [reflexivity|]; split; [reflexivity|].
    split; [exact Hdata_ok|]; split; [exact Hcache_ok|].
    rewrite Hreg; intros v; discriminate.
Qed.

Lemma Path_of_ext (v v' : option json) (default : path) :
  v = v' -> Path_of v default = Path_of v' default.
Proof. now intros ->. Qed.

Section Files.
Context {S : Type} (os : OS S).

Lemma load_config_there (w w1 : S) (payload : json) :
  path_exists os CONFIG_FILE w = true ->
  json_load os CONFIG_FILE w = (Return payload, w1) ->
  load_config os w
  = match from_dict payload with
    | Return config => (ensure_dirs os config ;;; ret config) w1
    | Raise e => (Raise e, w1)
    end.
Proof.
  intros Hthere Hload.
  unfold load_config, bindS at 1, gets; rewrite Hthere.
  unfold bindS at 1, bindS at 1; rewrite Hload.
  unfold lift; destruct (from_dict payload); reflexivity.
Qed.

End Files.
End Facts.
End ConfigFacts.

(** X26: a configuration written with [to_dict] is read back by
    [from_dict] as it was, given that a path is recovered from its
    string ([Path(str(p)) == p]). *)
Theorem config_round_trip (PL : Config.Pathlib) (config : Config.AppConfig) :
  (forall p, Config.Path_of_str (Config.str_of_path p) = p) ->
  Config.from_dict (Config.to_dict config) = Return config.
Proof.
  intros Hpath; destruct config as [data cache [emb llm]].
  unfold Config.from_dict, Config.to_dict.
  cbn [Config.dict_get bind PyDict.get String.eqb Ascii.eqb Bool.eqb
       Config.or_default Config.Path_of Config.data_dir Config.cache_dir
       Config.model_registry Config.embeddings Config.llms].
  now rewrite !Hpath.
Qed.

Lemma config_round_trip_witness :
  Config.from_dict (Config.to_dict SampleConfig.custom)
  = Return SampleConfig.custom.
Proof.
  apply (config_round_trip SampleConfig.posix SampleConfig.custom).
  reflexivity.
Defined.

(** X27: [from_dict] returns exactly on a dictionary whose "data_dir"
    and "cache_dir", when present, are strings and whose
    "model_registry", when present, is a dictionary; on any other
    payload it raises an AttributeError or a TypeError, and validates
    nothing else. *)
Theorem from_dict_accepts (PL : Config.Pathlib) (payload : json) :
  ((exists config, Config.from_dict payload = Return config)
   <-> exists entries,
         payload = JDict entries
         /\ (forall v, PyDict.get "data_dir" entries = Some v ->
                       exists s, v = JStr s)
         /\ (forall v, PyDict.get "cache_dir" entries = Some v ->
                       exists s, v = JStr s)
         /\ (forall v, PyDict.get "model_registry" entries = Some v ->
                       exists registry, v = JDict registry))
  /\ (forall e, Config.from_dict payload = Raise e ->
                exn_type e = "AttributeError" \/ exn_type e = "TypeError").
Proof.
  destruct (ConfigFacts.from_dict_cases payload)
    as [[config [entries [Hrun [-> [Hdata [Hcache Hreg]]]]]]
       | [e [Hrun [Htype Hbad]]]]; rewrite Hrun.
  - split; [|intros e; discriminate].
    split; [intros _; now exists entries | intros _; now exists config].
  - split; [|now intros e' [= <-]].
    split; [intros [config H]; discriminate|].
    intros [entries [-> [Hdata [Hcache Hreg]]]]; exfalso.
    destruct (Hbad entries eq_refl)
      as [[v [Hv Hno]] | [[v [Hv Hno]] | [v [Hv Hno]]]].
    + destruct (Hdata v Hv) as [s ->]; now apply (Hno s).
    + destruct (Hcache v Hv) as [s ->]; now apply (Hno s).
    + destruct (Hreg v Hv) as [r ->]; now apply (Hno r).
Qed.

Lemma from_dict_accepts_witness :
  exists config,
    Config.from_dict (PL := SampleConfig.posix)
      (JDict [("data_dir", JStr "/srv/esg"); ("model_registry", JDict [])])
    = Return config.
Proof.
  apply (proj2 (proj1 (from_dict_accepts SampleConfig.posix
                         (JDict [("data_dir", JStr "/srv/esg");
                                 ("model_registry", JDict [])])))).
  eexists; split; [reflexivity|].
  split; [intros v [= <-]; now eexists|].
  split; [intros v; discriminate|].
  intros v [= <-]; now eexists.
Defined.

(** X28: [from_dict] takes missing keys from the defaults and ignores
    the rest: a dictionary with none of "data_dir", "cache_dir" and
    "model_registry" gives [AppConfig()], whatever else it holds, and two
    dictionaries with the same values under these three keys give the
    same outcome. *)
Theorem from_dict_defaults (PL : Config.Pathlib) :
  (forall entries,
      PyDict.get "data_dir" entries = None ->
      PyDict.get "cache_dir" entries = None ->
      PyDict.get "model_registry" entries = None ->
      Config.from_dict (JDict entries) = Return Config.AppConfig_default)
  /\ (forall entries entries',
         PyDict.get "data_dir" entries = PyDict.get "data_dir" entries' ->
         PyDict.get "cache_dir" entries = PyDict.get "cache_dir" entries' ->
         PyDict.get "model_registry" entries
         = PyDict.get "model_registry" entries' ->
         Config.from_dict (JDict entries) = Config.from_dict (JDict entries')).
Proof.
  split.
  - intros entries Hdata Hcache Hreg.
    unfold Config.from_dict; cbn [Config.dict_get bind].
    rewrite Hdata, Hcache, Hreg; reflexivity.
  - intros entries entries' Hdata Hcache Hreg.
    unfold Config.from_dict; cbn [Config.dict_get bind].
    now rewrite Hdata, Hcache, Hreg.
Qed.

Lemma from_dict_defaults_witness :
  Config.from_dict (PL := SampleConfig.posix)
    (JDict [("theme", JStr "dark"); ("version", JInt 2)])
  = Return Config.AppConfig_default.
Proof.
  apply (proj1 (from_dict_defaults SampleConfig.posix)); reflexivity.
Defined.

(** X29: a configuration file that exists but holds a payload
    [from_dict] does not accept makes [load_config] raise, an
    AttributeError or a TypeError, before any directory is made and
    without writing: the file system is left as reading the file left
    it. *)
Theorem load_config_rejects_payload (PL : Config.Pathlib) (S : Type)
  (os : Config.OS S) (w w1 : S) (payload : json) :
  Config.path_exists os Config.CONFIG_FILE w = true ->
  Config.json_load os Config.CONFIG_FILE w = (Return payload, w1) ->
  (forall config, Config.from_dict payload <> Return config) ->
  exists e,
    Config.load_config os w = (Raise e, w1)
    /\ (exn_type e = "AttributeError" \/ exn_type e = "TypeError").
Proof.
  intros Hthere Hload Hbad.
  rewrite (ConfigFacts.load_config_there os w w1 payload Hthere Hload).
  destruct (ConfigFacts.from_dict_cases payload)
    as [[config [entries [Hrun _]]] | [e [Hrun [Htype _]]]].
  - now destruct (Hbad config).
  - rewrite Hrun; now exists e.
Qed.

Lemma load_config_rejects_payload_witness :
  exists e,
    Config.load_config SampleConfig.os SampleConfig.broken
    = (Raise e, SampleConfig.broken)
    /\ (exn_type e = "AttributeError" \/ exn_type e = "TypeError").
Proof.
  apply (load_config_rejects_payload SampleConfig.posix SampleConfig.Disk
           SampleConfig.os SampleConfig.broken SampleConfig.broken
           (JDict [("data_dir", JInt 3)])).
  - reflexivity.
  - reflexivity.
  - intros config; discriminate.
Defined.

(** X30: what [save_config] wrote is what [load_config] reads: given that
    a path is recovered from its string and that a file written with
    [json.dump] exists afterwards and is read back by [json.load],
    [load_config] after a [save_config] that returned does what
    [ensure_dirs] does for the saved configuration and returns that
    configuration. *)
Theorem save_then_load (PL : Config.Pathlib) (S : Type) (os : Config.OS S)
  (config : Config.AppConfig) (w w' : S) :
  (forall p, Config.Path_of_str (Config.str_of_path p) = p) ->
  (forall v u u',
      Config.json_dump os v Config.CONFIG_FILE u = (Return tt, u') ->
      Config.path_exists os Config.CONFIG_FILE u' = true
      /\ Config.json_load os Config.CONFIG_FILE u' = (Return v, u')) ->
  Config.save_config os config w = (Return tt, w') ->
  Config.load_config os w'
  = (Config.ensure_dirs os config ;;; ret config) w'.
Proof.
  intros Hpath Hfile Hsave.
  unfold Config.save_config, bindS at 1 in Hsave.
  destruct (Config.ensure_dirs os config w) as [[[]|e] w0];
    [|discriminate].
  destruct (Hfile _ _ _ Hsave) as [Hthere Hload].
  rewrite (ConfigFacts.load_config_there os w' w' _ Hthere Hload).
  now rewrite (ConfigFacts.from_dict_to_dict config Hpath).
Qed.

Lemma save_then_load_witness :
  exists disk,
    Config.save_config SampleConfig.os SampleConfig.custom SampleConfig.blank
    = (Return tt, disk)
    /\ Config.load_config SampleConfig.os disk
       = (Config.ensure_dirs SampleConfig.os SampleConfig.custom ;;;
          ret SampleConfig.custom) disk.
Proof.
  eexists; split; [reflexivity|].
  apply (save_then_load SampleConfig.posix SampleConfig.Disk SampleConfig.os
           SampleConfig.custom SampleConfig.blank).
  - reflexivity.
  - intros v u u' [= <-]; unfold Config.path_exists, Config.json_load.
    cbn [SampleConfig.os SampleConfig.files].
    unfold PyDict.mem; rewrite get_set_same; split; reflexivity.
  - reflexivity.
Defined.
